(** * Pi.Alert db_cleanup plugin: retention clean-up of the application database

    Shallow embedding of [front/plugins/db_cleanup/script.py].  The script is a
    fixed sequence of SQL statements run on one [sqlite3] connection, so the
    embedding has these layers:

    - [Sql]: the fragment of SQLite the statements use (NULL and three-valued
      conditions, text comparison, ORDER BY .. DESC, LIMIT, ROW_NUMBER() OVER,
      MIN(rowid), date('now', modifier));
    - one module per table ([Online_History], [Events], ...) and [database]:
      the rows the statements read and delete;
    - [Script]: the statements themselves and [cleanup_database], written in a
      small state-and-exception monad over the connection;
    - [Summary]: what a run amounts to, and the vocabulary of the theorems;
    - [Main]: [main], which reads the command line and starts the run;
    - [Scenario], [Cases]: concrete databases, clock readings and arguments.

    The proofs follow, then the theorems on the run, one per claim
    (C1 .. C10) of the specification, and further properties of the run and
    of [main]. *)

From Stdlib Require Import ZArith List Bool String Ascii Lia Permutation.
From Stdlib Require Import Sorted OrderedTypeEx DecimalString DecimalZ.
Import ListNotations.
Open Scope Z_scope.

(* ================================================================== *)
(** ** The SQL fragment *)
(* ================================================================== *)

Module Sql.

(** A TEXT column: [None] is NULL. *)
Definition value := option string.

(** An INTEGER column: [None] is NULL. *)
Definition integer := option Z.

(** The value of a condition: [None] is NULL (unknown). *)
Definition condition := option bool.

Definition sql_and (a b : condition) : condition :=
  match a, b with
  | Some false, _ | _, Some false => Some false
  | Some true, Some true => Some true
  | _, _ => None
  end.

(** Text comparison operators ([=], [<], [<=]) under the BINARY collation:
    bytewise, a proper prefix sorts first; NULL on either side gives NULL. *)
Definition text_eq (a b : value) : condition :=
  match a, b with
  | Some x, Some y => Some (String.eqb x y)
  | _, _ => None
  end.

Definition text_lt (a b : value) : condition :=
  match a, b with
  | Some x, Some y => Some (String.ltb x y)
  | _, _ => None
  end.

Definition text_le (a b : value) : condition :=
  match a, b with
  | Some x, Some y => Some (String.leb x y)
  | _, _ => None
  end.

Definition int_eq (a b : integer) : condition :=
  match a, b with
  | Some x, Some y => Some (x =? y)
  | _, _ => None
  end.

Definition int_gt (a b : integer) : condition :=
  match a, b with
  | Some x, Some y => Some (y <? x)
  | _, _ => None
  end.

(** A WHERE clause selects the rows on which the condition is true; false
    and NULL both leave the row out. *)
Definition holds (c : condition) : bool :=
  match c with
  | Some true => true
  | _ => false
  end.

(** [DELETE FROM t WHERE cond] *)
Definition delete_where {row : Type} (cond : row -> condition) (t : list row)
  : list row :=
  filter (fun r => negb (holds (cond r))) t.

(** [x IN (subquery)] for a subquery of non-NULL integers. *)
Definition in_list (x : Z) (l : list Z) : bool := existsb (Z.eqb x) l.

(** The sort order of ORDER BY: NULL before every text. *)
Definition order_leb (a b : value) : bool :=
  match a, b with
  | None, _ => true
  | Some _, None => false
  | Some x, Some y => String.leb x y
  end.

(** PARTITION BY groups like GROUP BY: two NULLs fall in the same group. *)
Definition same_group (a b : value) : bool :=
  match a, b with
  | None, None => true
  | Some x, Some y => String.eqb x y
  | _, _ => false
  end.

Section Queries.
  Context {row : Type}.

  (** [ORDER BY key DESC].  Rows with equal keys stay in table order. *)
Fixpoint insert_desc (key : row -> value) (r : row) (sorted : list row)
    : list row :=
    match sorted with
    | [] => [r]
    | x :: rest =>
        if order_leb (key x) (key r) then r :: sorted
        else x :: insert_desc key r rest
    end.

Definition order_by_desc (key : row -> value) (t : list row) : list row :=
    fold_right (insert_desc key) [] t.

  (** [LIMIT n] *)
Definition limit (n : nat) (t : list row) : list row := firstn n t.

  (** Sequential numbering of the rows of one partition, starting at [n]. *)
Fixpoint number_from (n : Z) (l : list row) : list (row * Z) :=
    match l with
    | [] => []
    | r :: l' => (r, n) :: number_from (n + 1) l'
    end.

  (** The distinct values of a column, in order of first appearance. *)
Fixpoint distinct (l : list value) : list value :=
    match l with
    | [] => []
    | v :: l' => v :: filter (fun w => negb (same_group w v)) (distinct l')
    end.

  (** [SELECT *, ROW_NUMBER() OVER (PARTITION BY part ORDER BY key DESC)
      AS row_num FROM t] *)
Definition row_number_over (part key : row -> value) (t : list row)
    : list (row * Z) :=
    flat_map
      (fun p =>
         number_from 1
           (order_by_desc key (filter (fun r => same_group (part r) p) t)))
      (distinct (map part t)).

  (** [SELECT MIN(rowid) FROM ...]: NULL on no rows. *)
Fixpoint min_rowid (l : list Z) : integer :=
    match l with
    | [] => None
    | x :: l' =>
        match min_rowid l' with
        | None => Some x
        | Some m => Some (Z.min x m)
        end
    end.
End Queries.

(** *** date('now', modifier)

    SQLite keeps an instant as [iJD], the milliseconds since noon of
    24 November 4714 BC (Julian day 0).  [now] is the clock of the operating
    system, in milliseconds since 1970-01-01 00:00:00 UTC.  A date function
    returns NULL when its instant is outside Julian days 0 .. 5373484.5, that
    is -4713-11-24 12:00:00 .. 9999-12-31 23:59:59, or when a modifier is
    refused.  The functions below are those of SQLite's [date.c], as of
    SQLite 3.40. *)

Inductive time_unit := Day | Hour.

Definition ms_per (u : time_unit) : Z :=
  match u with
  | Day => 86400000
  | Hour => 3600000
  end.

(** Day number (days since 1970-01-01) of an instant. *)
Definition day_number (t : Z) : Z := t / 86400000.

(** [iJD] of an instant given in milliseconds since 1970-01-01. *)
Definition julian_ms (t : Z) : Z := t + 210866760000000.

(** [validJulianDay] *)
Definition in_date_range (t : Z) : bool :=
  (0 <=? julian_ms t) && (julian_ms t <=? 464269060799999).

(** [computeYMD]: year, month and day of [iJD].  The function works in
    double precision and truncates to [int]; each quotient is written here
    on integers, [(Z - 1867216.25)/36524.25] as
    [(100 Z - 186721625) / 3652425], [(B - 122.1)/365.25] as
    [(20 B - 2442) / 7305], [(B - D)/30.6001] as [10000 (B - D) / 306001]
    and [30.6001 E] as [306001 E / 10000], with [Z.quot] for the truncation
    toward zero of C.  Years count astronomically: 0000 is 1 BC.  Before year
    0 the result departs from the proleptic Gregorian calendar on thirteen
    days, which it calls 29 February of a year that has none
    (-4500-02-29, -4100-02-29, ...). *)
Definition computeYMD (iJD : Z) : Z * Z * Z :=
  let jd := Z.quot (iJD + 43200000) 86400000 in
  let A := Z.quot (100 * jd - 186721625) 3652425 in
  let A := jd + 1 + A - Z.quot A 4 in
  let B := A + 1524 in
  let C := Z.quot (20 * B - 2442) 7305 in
  let D := Z.quot (36525 * Z.land C 32767) 100 in
  let E := Z.quot (10000 * (B - D)) 306001 in
  let X1 := Z.quot (306001 * E) 10000 in
  let day := B - D - X1 in
  let month := if E <? 14 then E - 1 else E - 13 in
  let year := if 2 <? month then C - 4716 else C - 4715 in
  (year, month, day).

(** [computeHMS]: the milliseconds elapsed since the start of the day. *)
Definition ms_of_day (iJD : Z) : Z := Z.rem (iJD + 43200000) 86400000.

Definition digit (n : Z) : ascii := ascii_of_N (Z.to_N (48 + n mod 10)).

Definition fmt2 (n : Z) : string :=
  String (digit (n / 10)) (String (digit n) EmptyString).

Definition fmt4 (n : Z) : string :=
  String (digit (n / 1000)) (String (digit (n / 100)) (fmt2 n)).

(** [YYYY-MM-DD], and [-YYYY-MM-DD] for a year before 0000. *)
Definition format_date (ymd : Z * Z * Z) : string :=
  let '(y, m, d) := ymd in
  ((if (y <? 0)%Z then "-" else EmptyString)
   ++ fmt4 (Z.abs y) ++ "-" ++ fmt2 m ++ "-" ++ fmt2 d)%string.

(** [HH:MM:SS] *)
Definition format_time (ms : Z) : string :=
  let s := ms / 1000 in
  (fmt2 (s / 3600) ++ ":" ++ fmt2 (s / 60 mod 60) ++ ":" ++ fmt2 (s mod 60))%string.

(** The text of [date(t)]: the calendar date, without the time of day. *)
Definition date_of (t : Z) : value :=
  if in_date_range t then Some (format_date (computeYMD (julian_ms t)))
  else None.

(** The text of [datetime(t)]: date and time of day. *)
Definition datetime_of (t : Z) : value :=
  if in_date_range t then
    Some (format_date (computeYMD (julian_ms t)) ++ " "
          ++ format_time (ms_of_day (julian_ms t)))%string
  else None.

(** [rLimit]: the counts a modifier takes are below this bound, 5373485 days
    and 1.2897e+11 hours, the latter held in single precision.  From a clock
    within the range of dates a count that reaches the bound shifts out of
    the range anyway. *)
Definition rLimit (u : time_unit) : Z :=
  match u with
  | Day => 5373485
  | Hour => 128969998336
  end.

(** The modifier text ['-{n} day'] or ['-{n} hour'], where [n] is printed by
    Python's [str]: for a negative [n] the text reads ['--5 day'], which is
    not a number followed by a unit, and the modifier is rejected; so is a
    count that reaches [rLimit]. *)
Definition minus_modifier (n : Z) (u : time_unit) : option Z :=
  if (n <? 0) || (rLimit u <=? n) then None else Some (- (n * ms_per u)).

(** [date('now', '-{n} unit')].  ['now'] is taken only from a clock that
    reads a positive [iJD] ([setDateTimeToCurrent]); the range of dates is
    checked on the shifted instant, at the end. *)
Definition date_now_minus (now n : Z) (u : time_unit) : value :=
  if 0 <? julian_ms now then
    match minus_modifier n u with
    | None => None
    | Some shift => date_of (now + shift)
    end
  else None.

End Sql.

(* ================================================================== *)
(** ** The tables *)
(* ================================================================== *)

(** Modelled from the spec: the schema of the eight tables (section 3 of the
    specification); the CREATE TABLE statements are not part of the plugin.
    Each row carries the columns the statements name, with ["Index"] and
    [rowid] the integer row identifier, and [other_columns] for the rest of
    the record, which no statement reads. *)

Module Online_History.
Record row := { Index : Z; Scan_Date : Sql.value;
                  other_columns : list Sql.value }.
End Online_History.

Module Events.
Record row := { eve_DateTime : Sql.value; other_columns : list Sql.value }.
End Events.

Module Plugins_History.
Record row := { Index : Z; Plugin : Sql.value; DateTimeChanged : Sql.value;
                  other_columns : list Sql.value }.
End Plugins_History.

Module Notifications.
Record row := { Index : Z; DateTimeCreated : Sql.value;
                  other_columns : list Sql.value }.
End Notifications.

Module AppEvents.
Record row := { Index : Z; DateTimeCreated : Sql.value;
                  other_columns : list Sql.value }.
End AppEvents.

Module Devices.
Record row := { dev_NewDevice : Sql.integer; dev_FirstConnection : Sql.value;
                  other_columns : list Sql.value }.
End Devices.

Module Pholus_Scan.
Record row := { rowid : Z; Time : Sql.value; MAC : Sql.value;
                  Value : Sql.value; Record_Type : Sql.value;
                  other_columns : list Sql.value }.
End Pholus_Scan.

Module Plugins_Objects.
Record row := { rowid : Z; Plugin : Sql.value; Object_PrimaryID : Sql.value;
                  Object_SecondaryID : Sql.value; UserData : Sql.value;
                  other_columns : list Sql.value }.
End Plugins_Objects.

(** The database file: the eight tables of the clean-up and, by name, every
    other table of the application. *)
Record database := {
  tbl_Online_History : list Online_History.row;
  tbl_Events : list Events.row;
  tbl_Plugins_History : list Plugins_History.row;
  tbl_Notifications : list Notifications.row;
  tbl_AppEvents : list AppEvents.row;
  tbl_Devices : list Devices.row;
  tbl_Pholus_Scan : list Pholus_Scan.row;
  tbl_Plugins_Objects : list Plugins_Objects.row;
  other_tables : list (string * list (list Sql.value))
}.

(* ================================================================== *)
(** ** The script *)
(* ================================================================== *)

Module Script.
Import Sql.

(** What [get_setting_value] returns for the settings read here: an integer,
    or the empty string when the setting is not filled in. *)
Inductive setting := Empty | Int (n : Z).

(** *** The statements, table by table *)

(** [DELETE from Online_History where "Index" not in (SELECT "Index" from
    Online_History order by Scan_Date desc limit 150)] *)
Definition delete_online_history (t : list Online_History.row)
  : list Online_History.row :=
  let newest :=
    map Online_History.Index
      (limit 150 (order_by_desc Online_History.Scan_Date t)) in
  filter (fun r => in_list (Online_History.Index r) newest) t.

(** [DELETE FROM Events WHERE eve_DateTime <= date('now', '-{N} day')] *)
Definition delete_events (now DAYS_TO_KEEP_EVENTS : Z) (t : list Events.row)
  : list Events.row :=
  delete_where
    (fun r => text_le (Events.eve_DateTime r)
                      (date_now_minus now DAYS_TO_KEEP_EVENTS Day))
    t.

(** [DELETE FROM t WHERE "Index" NOT IN (SELECT "Index" FROM (SELECT "Index",
    ROW_NUMBER() OVER(PARTITION BY part ORDER BY key DESC) AS row_num FROM t)
    AS ranked_objects WHERE row_num <= {K})] *)
Definition trim_ranked {row : Type} (Index : row -> Z)
    (part key : row -> value) (K : Z) (t : list row) : list row :=
  let ranked_objects := row_number_over part key t in
  let kept :=
    map (fun x => Index (fst x))
      (filter (fun x => snd x <=? K) ranked_objects) in
  filter (fun r => in_list (Index r) kept) t.

Definition trim_plugins_history (PLUGINS_KEEP_HIST : Z)
  : list Plugins_History.row -> list Plugins_History.row :=
  trim_ranked Plugins_History.Index Plugins_History.Plugin
    Plugins_History.DateTimeChanged PLUGINS_KEEP_HIST.

(** [PARTITION BY "Notifications"]: the table has no column of that name, so
    SQLite reads the double-quoted word as the string ['Notifications'], the
    same on every row. *)
Definition trim_notifications (histCount : Z)
  : list Notifications.row -> list Notifications.row :=
  trim_ranked Notifications.Index (fun _ => Some "Notifications"%string)
    Notifications.DateTimeCreated histCount.

(** [PARTITION BY "AppEvents"]: likewise the string ['AppEvents']. *)
Definition trim_appevents (histCount : Z)
  : list AppEvents.row -> list AppEvents.row :=
  trim_ranked AppEvents.Index (fun _ => Some "AppEvents"%string)
    AppEvents.DateTimeCreated histCount.

(** [DELETE FROM Devices WHERE dev_NewDevice = 1 AND dev_FirstConnection <
    date('now', '-{H} hour')] *)
Definition delete_new_devices (now HRS_TO_KEEP_NEWDEV : Z)
    (t : list Devices.row) : list Devices.row :=
  delete_where
    (fun r =>
       sql_and (int_eq (Devices.dev_NewDevice r) (Some 1))
               (text_lt (Devices.dev_FirstConnection r)
                        (date_now_minus now HRS_TO_KEEP_NEWDEV Hour)))
    t.

(** [DELETE FROM Pholus_Scan WHERE Time <= date('now', '-{D} day')] *)
Definition delete_pholus_scan (now PHOLUS_DAYS_DATA : Z)
    (t : list Pholus_Scan.row) : list Pholus_Scan.row :=
  delete_where
    (fun r => text_le (Pholus_Scan.Time r)
                      (date_now_minus now PHOLUS_DAYS_DATA Day))
    t.

(** [DELETE FROM t WHERE rowid > (SELECT MIN(rowid) FROM t p2 WHERE
    same_key(t, p2))] *)
Definition delete_duplicates {row : Type} (rowid : row -> Z)
    (same_key : row -> row -> condition) (t : list row) : list row :=
  delete_where
    (fun r =>
       int_gt (Some (rowid r))
              (min_rowid
                 (map rowid (filter (fun p2 => holds (same_key r p2)) t))))
    t.

Definition pholus_same_key (r p2 : Pholus_Scan.row) : condition :=
  sql_and (text_eq (Pholus_Scan.MAC r) (Pholus_Scan.MAC p2))
    (sql_and (text_eq (Pholus_Scan.Value r) (Pholus_Scan.Value p2))
       (text_eq (Pholus_Scan.Record_Type r) (Pholus_Scan.Record_Type p2))).

Definition dedupe_pholus_scan : list Pholus_Scan.row -> list Pholus_Scan.row :=
  delete_duplicates Pholus_Scan.rowid pholus_same_key.

Definition objects_same_key (r p2 : Plugins_Objects.row) : condition :=
  sql_and (text_eq (Plugins_Objects.Plugin r) (Plugins_Objects.Plugin p2))
    (sql_and
       (text_eq (Plugins_Objects.Object_PrimaryID r)
                (Plugins_Objects.Object_PrimaryID p2))
       (sql_and
          (text_eq (Plugins_Objects.Object_SecondaryID r)
                   (Plugins_Objects.Object_SecondaryID p2))
          (text_eq (Plugins_Objects.UserData r)
                   (Plugins_Objects.UserData p2)))).

Definition dedupe_plugins_objects
  : list Plugins_Objects.row -> list Plugins_Objects.row :=
  delete_duplicates Plugins_Objects.rowid objects_same_key.

(** *** The statements as the cursor receives them *)

Inductive statement :=
| Delete_Online_History
| Delete_Events (DAYS_TO_KEEP_EVENTS : Z)
| Trim_Plugins_History (PLUGINS_KEEP_HIST : Z)
| Trim_Notifications (histCount : setting)
| Trim_AppEvents (histCount : setting)
| Delete_New_Devices (HRS_TO_KEEP_NEWDEV : Z)
| Delete_Pholus_Scan (PHOLUS_DAYS_DATA : Z)
| Dedupe_Pholus_Scan
| Dedupe_Plugins_Objects
| VACUUM.

Definition with_Online_History (f : list Online_History.row -> list Online_History.row)
    (db : database) : database :=
  {| tbl_Online_History := f (tbl_Online_History db);
     tbl_Events := tbl_Events db;
     tbl_Plugins_History := tbl_Plugins_History db;
     tbl_Notifications := tbl_Notifications db;
     tbl_AppEvents := tbl_AppEvents db;
     tbl_Devices := tbl_Devices db;
     tbl_Pholus_Scan := tbl_Pholus_Scan db;
     tbl_Plugins_Objects := tbl_Plugins_Objects db;
     other_tables := other_tables db |}.

Definition with_Events (f : list Events.row -> list Events.row)
    (db : database) : database :=
  {| tbl_Online_History := tbl_Online_History db;
     tbl_Events := f (tbl_Events db);
     tbl_Plugins_History := tbl_Plugins_History db;
     tbl_Notifications := tbl_Notifications db;
     tbl_AppEvents := tbl_AppEvents db;
     tbl_Devices := tbl_Devices db;
     tbl_Pholus_Scan := tbl_Pholus_Scan db;
     tbl_Plugins_Objects := tbl_Plugins_Objects db;
     other_tables := other_tables db |}.

Definition with_Plugins_History
    (f : list Plugins_History.row -> list Plugins_History.row)
    (db : database) : database :=
  {| tbl_Online_History := tbl_Online_History db;
     tbl_Events := tbl_Events db;
     tbl_Plugins_History := f (tbl_Plugins_History db);
     tbl_Notifications := tbl_Notifications db;
     tbl_AppEvents := tbl_AppEvents db;
     tbl_Devices := tbl_Devices db;
     tbl_Pholus_Scan := tbl_Pholus_Scan db;
     tbl_Plugins_Objects := tbl_Plugins_Objects db;
     other_tables := other_tables db |}.

Definition with_Notifications
    (f : list Notifications.row -> list Notifications.row)
    (db : database) : database :=
  {| tbl_Online_History := tbl_Online_History db;
     tbl_Events := tbl_Events db;
     tbl_Plugins_History := tbl_Plugins_History db;
     tbl_Notifications := f (tbl_Notifications db);
     tbl_AppEvents := tbl_AppEvents db;
     tbl_Devices := tbl_Devices db;
     tbl_Pholus_Scan := tbl_Pholus_Scan db;
     tbl_Plugins_Objects := tbl_Plugins_Objects db;
     other_tables := other_tables db |}.

Definition with_AppEvents (f : list AppEvents.row -> list AppEvents.row)
    (db : database) : database :=
  {| tbl_Online_History := tbl_Online_History db;
     tbl_Events := tbl_Events db;
     tbl_Plugins_History := tbl_Plugins_History db;
     tbl_Notifications := tbl_Notifications db;
     tbl_AppEvents := f (tbl_AppEvents db);
     tbl_Devices := tbl_Devices db;
     tbl_Pholus_Scan := tbl_Pholus_Scan db;
     tbl_Plugins_Objects := tbl_Plugins_Objects db;
     other_tables := other_tables db |}.

Definition with_Devices (f : list Devices.row -> list Devices.row)
    (db : database) : database :=
  {| tbl_Online_History := tbl_Online_History db;
     tbl_Events := tbl_Events db;
     tbl_Plugins_History := tbl_Plugins_History db;
     tbl_Notifications := tbl_Notifications db;
     tbl_AppEvents := tbl_AppEvents db;
     tbl_Devices := f (tbl_Devices db);
     tbl_Pholus_Scan := tbl_Pholus_Scan db;
     tbl_Plugins_Objects := tbl_Plugins_Objects db;
     other_tables := other_tables db |}.

Definition with_Pholus_Scan (f : list Pholus_Scan.row -> list Pholus_Scan.row)
    (db : database) : database :=
  {| tbl_Online_History := tbl_Online_History db;
     tbl_Events := tbl_Events db;
     tbl_Plugins_History := tbl_Plugins_History db;
     tbl_Notifications := tbl_Notifications db;
     tbl_AppEvents := tbl_AppEvents db;
     tbl_Devices := tbl_Devices db;
     tbl_Pholus_Scan := f (tbl_Pholus_Scan db);
     tbl_Plugins_Objects := tbl_Plugins_Objects db;
     other_tables := other_tables db |}.

Definition with_Plugins_Objects
    (f : list Plugins_Objects.row -> list Plugins_Objects.row)
    (db : database) : database :=
  {| tbl_Online_History := tbl_Online_History db;
     tbl_Events := tbl_Events db;
     tbl_Plugins_History := tbl_Plugins_History db;
     tbl_Notifications := tbl_Notifications db;
     tbl_AppEvents := tbl_AppEvents db;
     tbl_Devices := tbl_Devices db;
     tbl_Pholus_Scan := tbl_Pholus_Scan db;
     tbl_Plugins_Objects := f (tbl_Plugins_Objects db);
     other_tables := other_tables db |}.

(** The effect of a DELETE statement on the rows of the database at clock
    reading [now]; [None] when the statement text is malformed, which happens
    when an empty setting is pasted after [row_num <=]. *)
Definition execute_sql (now : Z) (s : statement) (db : database)
  : option database :=
  match s with
  | Delete_Online_History =>
      Some (with_Online_History delete_online_history db)
  | Delete_Events n => Some (with_Events (delete_events now n) db)
  | Trim_Plugins_History k =>
      Some (with_Plugins_History (trim_plugins_history k) db)
  | Trim_Notifications (Int k) =>
      Some (with_Notifications (trim_notifications k) db)
  | Trim_Notifications Empty => None
  | Trim_AppEvents (Int k) => Some (with_AppEvents (trim_appevents k) db)
  | Trim_AppEvents Empty => None
  | Delete_New_Devices h => Some (with_Devices (delete_new_devices now h) db)
  | Delete_Pholus_Scan d => Some (with_Pholus_Scan (delete_pholus_scan now d) db)
  | Dedupe_Pholus_Scan => Some (with_Pholus_Scan dedupe_pholus_scan db)
  | Dedupe_Plugins_Objects =>
      Some (with_Plugins_Objects dedupe_plugins_objects db)
  | VACUUM => Some db
  end.

(** *** The connection *)

(** The calls the script makes on the [sqlite3] connection. *)
Inductive call :=
| Connect
| Execute (s : statement)
| Commit
| Close.

(** The database file and the connection to it.  [disk] is the committed
    content; [pending] is the content as the open transaction sees it, when
    one is open; [calls] lists the calls that completed, oldest first. *)
Record world := {
  disk : database;
  pending : option database;
  is_open : bool;
  calls : list call
}.

Definition view (w : world) : database :=
  match pending w with
  | Some db => db
  | None => disk w
  end.

Definition called (c : call) (w : world) : list call := calls w ++ [c].

(** What the script takes from outside: the database clock, the settings
    provider, and [fault], which tells for each call (counted from 0) whether
    the database refuses it (file locked, disk full, ...). *)
Record environment := {
  now : Z;
  get_setting_value : string -> setting;
  fault : nat -> bool
}.

Inductive exn := OperationalError | ProgrammingError.

Inductive result (A : Type) :=
| Return (a : A)
| Raise (e : exn).
Arguments Return {A} a.
Arguments Raise {A} e.

Definition M (A : Type) : Type := world -> result A * world.

Definition ret {A : Type} (a : A) : M A := fun w => (Return a, w).

Definition bind {A B : Type} (c : M A) (k : A -> M B) : M B :=
  fun w =>
    match c w with
    | (Return a, w') => k a w'
    | (Raise e, w') => (Raise e, w')
    end.

Notation "c1 ;; c2" := (bind c1 (fun _ => c2))
  (at level 61, right associativity).

(** [sqlite3.connect(dbPath)] *)
Definition connect (E : environment) : M unit :=
  fun w =>
    if fault E (List.length (calls w)) then (Raise OperationalError, w)
    else (Return tt,
          {| disk := disk w; pending := None; is_open := true;
             calls := called Connect w |}).

(** [cursor.execute(s)].  A DELETE opens a transaction when none is open and
    works on its view; VACUUM is refused inside a transaction and leaves the
    rows as they are. *)
Definition execute (E : environment) (s : statement) : M unit :=
  fun w =>
    if fault E (List.length (calls w)) then (Raise OperationalError, w)
    else if negb (is_open w) then (Raise ProgrammingError, w)
    else
      match s with
      | VACUUM =>
          match pending w with
          | Some _ => (Raise OperationalError, w)
          | None =>
              (Return tt,
               {| disk := disk w; pending := None; is_open := true;
                  calls := called (Execute s) w |})
          end
      | _ =>
          match execute_sql (now E) s (view w) with
          | None => (Raise OperationalError, w)
          | Some db =>
              (Return tt,
               {| disk := disk w; pending := Some db; is_open := true;
                  calls := called (Execute s) w |})
          end
      end.

(** [conn.commit()] *)
Definition commit (E : environment) : M unit :=
  fun w =>
    if fault E (List.length (calls w)) then (Raise OperationalError, w)
    else if negb (is_open w) then (Raise ProgrammingError, w)
    else (Return tt,
          {| disk := view w; pending := None; is_open := true;
             calls := called Commit w |}).

(** [conn.close()]: what was not committed is dropped. *)
Definition close (E : environment) : M unit :=
  fun w =>
    if fault E (List.length (calls w)) then (Raise OperationalError, w)
    else (Return tt,
          {| disk := disk w; pending := None; is_open := false;
             calls := called Close w |}).

(** [PHOLUS_DAYS_DATA != "" and PHOLUS_DAYS_DATA != 0] *)
Definition pholus_enabled (PHOLUS_DAYS_DATA : setting) : option Z :=
  match PHOLUS_DAYS_DATA with
  | Empty => None
  | Int d => if d =? 0 then None else Some d
  end.

(** *** cleanup_database *)

Definition cleanup_database (E : environment) (DAYS_TO_KEEP_EVENTS : Z)
    (PHOLUS_DAYS_DATA : setting) (HRS_TO_KEEP_NEWDEV PLUGINS_KEEP_HIST : Z)
  : M unit :=
  connect E ;;
  execute E Delete_Online_History ;;
  execute E (Delete_Events DAYS_TO_KEEP_EVENTS) ;;
  execute E (Trim_Plugins_History PLUGINS_KEEP_HIST) ;;
  (let histCount := get_setting_value E "DBCLNP_NOTIFI_HIST" in
   execute E (Trim_Notifications histCount)) ;;
  (let histCount := get_setting_value E "WORKFLOWS_AppEvents_hist" in
   execute E (Trim_AppEvents histCount)) ;;
  (if HRS_TO_KEEP_NEWDEV =? 0 then ret tt
   else execute E (Delete_New_Devices HRS_TO_KEEP_NEWDEV)) ;;
  (match pholus_enabled PHOLUS_DAYS_DATA with
   | Some d => execute E (Delete_Pholus_Scan d)
   | None => ret tt
   end) ;;
  execute E Dedupe_Pholus_Scan ;;
  execute E Dedupe_Plugins_Objects ;;
  commit E ;;
  execute E VACUUM ;;
  close E.

(** The world before the script starts: the database file, no connection. *)
Definition at_rest (db : database) : world :=
  {| disk := db; pending := None; is_open := false; calls := [] |}.

(** One run of the plugin on the database file [db]. *)
Definition run (E : environment) (DAYS_TO_KEEP_EVENTS : Z)
    (PHOLUS_DAYS_DATA : setting) (HRS_TO_KEEP_NEWDEV PLUGINS_KEEP_HIST : Z)
    (db : database) : result unit * world :=
  cleanup_database E DAYS_TO_KEEP_EVENTS PHOLUS_DAYS_DATA HRS_TO_KEEP_NEWDEV
    PLUGINS_KEEP_HIST (at_rest db).

(** The database file a run leaves behind. *)
Definition after_run (E : environment) (DAYS_TO_KEEP_EVENTS : Z)
    (PHOLUS_DAYS_DATA : setting) (HRS_TO_KEEP_NEWDEV PLUGINS_KEEP_HIST : Z)
    (db : database) : database :=
  disk (snd (run E DAYS_TO_KEEP_EVENTS PHOLUS_DAYS_DATA HRS_TO_KEEP_NEWDEV
               PLUGINS_KEEP_HIST db)).

(** The run came back without an exception. *)
Definition completes (r : result unit * world) : Prop := fst r = Return tt.

End Script.

(* ================================================================== *)
(** ** What a run amounts to *)
(* ================================================================== *)

Module Summary.
Import Sql Script.

(** The new-device step: skipped when the parameter is 0. *)
Definition expire_new_devices (now HRS_TO_KEEP_NEWDEV : Z)
    (t : list Devices.row) : list Devices.row :=
  if HRS_TO_KEEP_NEWDEV =? 0 then t
  else delete_new_devices now HRS_TO_KEEP_NEWDEV t.

(** The Pholus_Scan age-out: skipped when the setting is empty or 0. *)
Definition age_out_pholus (now : Z) (PHOLUS_DAYS_DATA : setting)
    (t : list Pholus_Scan.row) : list Pholus_Scan.row :=
  match pholus_enabled PHOLUS_DAYS_DATA with
  | Some d => delete_pholus_scan now d t
  | None => t
  end.

(** The rows a run that commits leaves in the file, table by table;
    [kN] and [kA] are the two history counts read from the settings. *)
Definition cleaned (now DAYS_TO_KEEP_EVENTS : Z) (PHOLUS_DAYS_DATA : setting)
    (HRS_TO_KEEP_NEWDEV PLUGINS_KEEP_HIST kN kA : Z) (db : database)
  : database :=
  {| tbl_Online_History := delete_online_history (tbl_Online_History db);
     tbl_Events := delete_events now DAYS_TO_KEEP_EVENTS (tbl_Events db);
     tbl_Plugins_History :=
       trim_plugins_history PLUGINS_KEEP_HIST (tbl_Plugins_History db);
     tbl_Notifications := trim_notifications kN (tbl_Notifications db);
     tbl_AppEvents := trim_appevents kA (tbl_AppEvents db);
     tbl_Devices := expire_new_devices now HRS_TO_KEEP_NEWDEV (tbl_Devices db);
     tbl_Pholus_Scan :=
       dedupe_pholus_scan
         (age_out_pholus now PHOLUS_DAYS_DATA (tbl_Pholus_Scan db));
     tbl_Plugins_Objects := dedupe_plugins_objects (tbl_Plugins_Objects db);
     other_tables := other_tables db |}.

(** The DELETE statements of a run, in the order the script issues them. *)
Definition deletes (DAYS_TO_KEEP_EVENTS : Z) (PHOLUS_DAYS_DATA : setting)
    (HRS_TO_KEEP_NEWDEV PLUGINS_KEEP_HIST kN kA : Z) : list statement :=
  [Delete_Online_History; Delete_Events DAYS_TO_KEEP_EVENTS;
   Trim_Plugins_History PLUGINS_KEEP_HIST; Trim_Notifications (Int kN);
   Trim_AppEvents (Int kA)]
  ++ (if HRS_TO_KEEP_NEWDEV =? 0 then []
      else [Delete_New_Devices HRS_TO_KEEP_NEWDEV])
  ++ (match pholus_enabled PHOLUS_DAYS_DATA with
      | Some d => [Delete_Pholus_Scan d]
      | None => []
      end)
  ++ [Dedupe_Pholus_Scan; Dedupe_Plugins_Objects].

(** The rows of [t] in the partition of [p]. *)
Definition partition_of {row : Type} (part : row -> value) (p : value)
    (t : list row) : list row :=
  filter (fun r => same_group (part r) p) t.

(** [a] may stand before [b] under ORDER BY key DESC. *)
Definition desc {row : Type} (key : row -> value) (a b : row) : Prop :=
  order_leb (key b) (key a) = true.

(** [r] is a row of [before] that [after] no longer has. *)
Definition deleted_from {row : Type} (before after : list row) (r : row)
  : Prop :=
  In r before /\ ~ In r after.

(** [after] holds the [K] newest rows of [before]: at most [K] rows, the
    first [K] under ORDER BY key DESC, each of them at least as new as
    every row that went. *)
Definition keeps_newest {row : Type} (key : row -> value) (K : Z)
    (before after : list row) : Prop :=
  Z.of_nat (List.length after) <= K
  /\ Permutation after (limit (Z.to_nat K) (order_by_desc key before))
  /\ forall kept dropped,
       In kept after -> deleted_from before after dropped ->
       desc key kept dropped.

(** The calls of a run that meets no refusal. *)
Definition script (DAYS_TO_KEEP_EVENTS : Z) (PHOLUS_DAYS_DATA : setting)
    (HRS_TO_KEEP_NEWDEV PLUGINS_KEEP_HIST kN kA : Z) : list call :=
  Connect
  :: map Execute
       (deletes DAYS_TO_KEEP_EVENTS PHOLUS_DAYS_DATA HRS_TO_KEEP_NEWDEV
          PLUGINS_KEEP_HIST kN kA)
  ++ [Commit; Execute VACUUM; Close].

(** No two rows of [t] with different row ids have keys that compare
    equal. *)
Definition no_duplicates {row : Type} (rowid : row -> Z)
    (same_key : row -> row -> condition) (t : list row) : Prop :=
  forall r1 r2,
    In r1 t -> In r2 t -> holds (same_key r1 r2) = true ->
    rowid r1 = rowid r2.

(** Of every group of rows of [before] whose keys compare equal, [after]
    has a row, and its row id is the smallest of the group. *)
Definition smallest_kept {row : Type} (rowid : row -> Z)
    (same_key : row -> row -> condition) (before after : list row) : Prop :=
  forall r,
    In r before -> holds (same_key r r) = true ->
    exists m,
      In m after
      /\ holds (same_key r m) = true
      /\ forall r', In r' before -> holds (same_key r r') = true ->
                    rowid m <= rowid r'.

(** [after] is [before] with some rows deleted: no row added, none changed,
    the others in the order they had. *)
Definition only_deletes {row : Type} (before after : list row) : Prop :=
  exists keep : row -> bool, after = filter keep before.

End Summary.

(* ================================================================== *)
(** ** The entry point *)
(* ================================================================== *)

Module Main.
Import Sql Script.

(** [s.split(sep)] for a one-character separator: the pieces between the
    separators, empty pieces included; never the empty list. *)
Fixpoint split_on (sep : ascii) (s : string) : list string :=
  match s with
  | EmptyString => [EmptyString]
  | String c rest =>
      if Ascii.eqb c sep then EmptyString :: split_on sep rest
      else
        match split_on sep rest with
        | [] => [String c EmptyString]
        | piece :: pieces => String c piece :: pieces
        end
  end.

(** The arguments reach the script as the bytes the operating system passes,
    which Python decodes as UTF-8 into the [str] values of [sys.argv]; a byte
    that belongs to no well-formed sequence becomes the lone surrogate
    U+DC00 + byte (surrogateescape).  The texts of the model are those bytes,
    [decode_utf8] gives their characters, as code points.  Splitting on [=]
    is the same before and after decoding. *)
Definition byte (c : ascii) : Z := Z.of_N (N_of_ascii c).

Definition continuation (b : Z) : bool := (128 <=? b) && (b <=? 191).

(** The second byte of a sequence of three: no overlong form, no surrogate. *)
Definition second_of_three (b0 b1 : Z) : bool :=
  if b0 =? 224 then (160 <=? b1) && (b1 <=? 191)
  else if b0 =? 237 then (128 <=? b1) && (b1 <=? 159)
  else continuation b1.

(** The second byte of a sequence of four: no overlong form, nothing beyond
    U+10FFFF. *)
Definition second_of_four (b0 b1 : Z) : bool :=
  if b0 =? 240 then (144 <=? b1) && (b1 <=? 191)
  else if b0 =? 244 then (128 <=? b1) && (b1 <=? 143)
  else continuation b1.

Fixpoint decode_utf8 (l : list Z) : list Z :=
  match l with
  | [] => []
  | b0 :: r0 =>
      if b0 <? 128 then b0 :: decode_utf8 r0
      else
        match r0 with
        | b1 :: r1 =>
            if (194 <=? b0) && (b0 <=? 223) && continuation b1 then
              (b0 - 192) * 64 + (b1 - 128) :: decode_utf8 r1
            else
              match r1 with
              | b2 :: r2 =>
                  if (224 <=? b0) && (b0 <=? 239) && second_of_three b0 b1
                     && continuation b2 then
                    (b0 - 224) * 4096 + (b1 - 128) * 64 + (b2 - 128)
                    :: decode_utf8 r2
                  else
                    match r2 with
                    | b3 :: r3 =>
                        if (240 <=? b0) && (b0 <=? 244)
                           && second_of_four b0 b1
                           && continuation b2 && continuation b3 then
                          (b0 - 240) * 262144 + (b1 - 128) * 4096
                          + (b2 - 128) * 64 + (b3 - 128)
                          :: decode_utf8 r3
                        else 56320 + b0 :: decode_utf8 r0
                    | [] => 56320 + b0 :: decode_utf8 r0
                    end
              | [] => 56320 + b0 :: decode_utf8 r0
              end
        | [] => 56320 + b0 :: decode_utf8 r0
        end
  end.

(** The white space beyond ASCII ([str.isspace], Unicode 14). *)
Definition unicode_spaces : list Z :=
  [133; 160; 5760; 8192; 8193; 8194; 8195; 8196; 8197; 8198; 8199; 8200;
   8201; 8202; 8232; 8233; 8239; 8287; 12288].

(** The digit zero of each run of ten decimal digits beyond ASCII
    (Unicode 14): Arabic-Indic, Devanagari, fullwidth and so on. *)
Definition decimal_zeros : list Z :=
  [1632; 1776; 1984; 2406; 2534; 2662; 2790; 2918; 3046; 3174; 3302; 3430;
   3558; 3664; 3792; 3872; 4160; 4240; 6112; 6160; 6470; 6608; 6784; 6800;
   6992; 7088; 7232; 7248; 42528; 43216; 43264; 43472; 43504; 43600; 44016;
   65296; 66720; 68912; 69734; 69872; 69942; 70096; 70384; 70736; 70864;
   71248; 71360; 71472; 71904; 72016; 72784; 73040; 73120; 92768; 92864;
   93008; 120782; 120792; 120802; 120812; 120822; 123200; 123632; 125264;
   130032].

Definition to_decimal (cp : Z) : option Z :=
  match find (fun z => (z <=? cp) && (cp <? z + 10)) decimal_zeros with
  | Some z => Some (cp - z)
  | None => None
  end.

Definition ascii_of_code (n : Z) : ascii := ascii_of_N (Z.to_N n).

(** What [int] makes of a character before it reads the number: a character
    below 127 stays, white space becomes a space, a decimal digit its ASCII
    digit, anything else a question mark. *)
Definition to_ascii (cp : Z) : ascii :=
  if cp <? 127 then ascii_of_code cp
  else if existsb (Z.eqb cp) unicode_spaces then " "%char
  else
    match to_decimal cp with
    | Some d => ascii_of_code (48 + d)
    | None => "?"%char
    end.

(** The ASCII white space [int] skips around the number: tab to carriage
    return, and the space. *)
Definition is_space (c : ascii) : bool :=
  let n := nat_of_ascii c in
  ((9 <=? n) && (n <=? 13) || (n =? 32))%nat.

Definition is_digit (c : ascii) : bool :=
  let n := nat_of_ascii c in ((48 <=? n) && (n <=? 57))%nat.

Fixpoint lstrip (l : list ascii) : list ascii :=
  match l with
  | [] => []
  | c :: rest => if is_space c then lstrip rest else l
  end.

Definition strip (l : list ascii) : list ascii :=
  rev (lstrip (rev (lstrip l))).

(** The digits of a decimal literal, a single underscore allowed between two
    digits; [None] when the text is not of that shape. *)
Fixpoint plain_digits (after_digit : bool) (l : list ascii)
  : option (list ascii) :=
  match l with
  | [] => if after_digit then Some [] else None
  | c :: rest =>
      if is_digit c then option_map (cons c) (plain_digits true rest)
      else if Ascii.eqb c "_" then
        if after_digit then plain_digits false rest else None
      else None
  end.

(** [int(s)], in base 10: white space around, a sign, digits with single
    underscores between them; at most 4300 digits, the limit of Python 3.11.
    [None] is ValueError. *)
Definition python_int (s : string) : option Z :=
  let l :=
    strip (map to_ascii (decode_utf8 (map byte (list_ascii_of_string s)))) in
  let '(negative, body) :=
    match l with
    | [] => (false, [])
    | c :: rest =>
        if Ascii.eqb c "-" then (true, rest)
        else if Ascii.eqb c "+" then (false, rest)
        else (false, l)
    end in
  match plain_digits false body with
  | None => None
  | Some ds =>
      if (4300 <? List.length ds)%nat then None
      else
        match NilEmpty.uint_of_string (string_of_list_ascii ds) with
        | Some u => Some (if negative then - Z.of_uint u else Z.of_uint u)
        | None => None
        end
  end.

(** [str(n)] for an integer. *)
Definition python_str (n : Z) : string :=
  NilZero.string_of_int (Z.to_int n).

(** What [parser.parse_args()] returns: the four positional arguments. *)
Record Namespace := {
  pluginskeephistory : string;
  hourstokeepnewdevice : string;
  daystokeepevents : string;
  pholuskeepdays : string
}.

(** The exceptions that leave [main]. *)
Inductive error :=
| IndexError
| ValueError
| DatabaseError (e : exn).

(** How the process ends: [main] returning its code, or an exception that
    nothing catches. *)
Inductive outcome :=
| Exit (code : Z)
| Uncaught (e : error).

(** [int(value.split('=')[1])] *)
Definition int_after_equals (value : string) : error + Z :=
  match nth_error (split_on "=" value) 1 with
  | None => inl IndexError
  | Some text =>
      match python_int text with
      | None => inl ValueError
      | Some n => inr n
      end
  end.

(** [main], from the parsed arguments on, on the database file [db]. *)
Definition main (E : environment) (values : Namespace) (db : database)
  : outcome * world :=
  match int_after_equals (pluginskeephistory values) with
  | inl e => (Uncaught e, at_rest db)
  | inr PLUGINS_KEEP_HIST =>
      match int_after_equals (hourstokeepnewdevice values) with
      | inl e => (Uncaught e, at_rest db)
      | inr HRS_TO_KEEP_NEWDEV =>
          match int_after_equals (daystokeepevents values) with
          | inl e => (Uncaught e, at_rest db)
          | inr DAYS_TO_KEEP_EVENTS =>
              let PHOLUS_DAYS_DATA := get_setting_value E "PHOLUS_DAYS_DATA" in
              match
                cleanup_database E DAYS_TO_KEEP_EVENTS PHOLUS_DAYS_DATA
                  HRS_TO_KEEP_NEWDEV PLUGINS_KEEP_HIST (at_rest db)
              with
              | (Return _, w) => (Exit 0, w)
              | (Raise e, w) => (Uncaught (DatabaseError e), w)
              end
          end
      end
  end.

(** The text has no [=] in it. *)
Definition without_equals (s : string) : Prop :=
  ~ In "="%char (list_ascii_of_string s).

End Main.

(* ================================================================== *)
(** ** Concrete databases and clocks *)
(* ================================================================== *)

Module Scenario.
Import Sql Script.

(** A database that refuses no call. *)
Definition no_fault : nat -> bool := fun _ => false.

(** A settings provider with both history counts filled in. *)
Definition settings (kN kA : Z) (name : string) : setting :=
  if String.eqb name "DBCLNP_NOTIFI_HIST" then Int kN
  else if String.eqb name "WORKFLOWS_AppEvents_hist" then Int kA
  else Empty.

Definition env (clock : Z) : environment :=
  {| now := clock; get_setting_value := settings 2 1; fault := no_fault |}.

(** 2024-01-20 12:00:00 UTC *)
Definition noon_20_jan : Z := 1705752000000.

(** 2024-01-20 23:59:59 UTC and 2024-01-21 00:00:01 UTC *)
Definition before_midnight : Z := 1705795199000.
Definition after_midnight : Z := 1705795201000.

Definition empty : database :=
  {| tbl_Online_History := []; tbl_Events := []; tbl_Plugins_History := [];
     tbl_Notifications := []; tbl_AppEvents := []; tbl_Devices := [];
     tbl_Pholus_Scan := []; tbl_Plugins_Objects := []; other_tables := [] |}.

Definition history (i : Z) (plugin changed : string) : Plugins_History.row :=
  {| Plugins_History.Index := i;
     Plugins_History.Plugin := Some plugin;
     Plugins_History.DateTimeChanged := Some changed;
     Plugins_History.other_columns := [] |}.

(** Five rows of plugin X with increasing DateTimeChanged, among two rows
    of plugin Y. *)
Definition five_of_X : database :=
  with_Plugins_History
    (fun _ =>
       [history 1 "X" "2024-01-01 08:00:00";
        history 2 "Y" "2023-06-01 08:00:00";
        history 3 "X" "2024-01-02 08:00:00";
        history 4 "X" "2024-01-03 08:00:00";
        history 5 "Y" "2023-06-02 08:00:00";
        history 6 "X" "2024-01-04 08:00:00";
        history 7 "X" "2024-01-05 08:00:00"]%string)
    empty.

Definition note (i : Z) (created : string) : Notifications.row :=
  {| Notifications.Index := i;
     Notifications.DateTimeCreated := Some created;
     Notifications.other_columns := [] |}.

Definition app_event (i : Z) (created : string) : AppEvents.row :=
  {| AppEvents.Index := i;
     AppEvents.DateTimeCreated := Some created;
     AppEvents.other_columns := [] |}.

(** Four notifications and three application events. *)
Definition notes_and_events : database :=
  with_Notifications
    (fun _ =>
       [note 1 "2024-01-01 08:00:00"; note 2 "2024-01-04 08:00:00";
        note 3 "2024-01-02 08:00:00"; note 4 "2024-01-03 08:00:00"]%string)
    (with_AppEvents
       (fun _ =>
          [app_event 1 "2024-01-01 08:00:00"; app_event 2 "2024-01-02 08:00:00";
           app_event 3 "2024-01-03 08:00:00"]%string)
       empty).

(** 152 scans, one a minute from noon, in table order. *)
Definition scan (i : nat) : Online_History.row :=
  {| Online_History.Index := Z.of_nat i;
     Online_History.Scan_Date := datetime_of (noon_20_jan + Z.of_nat i * 60000);
     Online_History.other_columns := [] |}.

Definition scans_152 : database :=
  with_Online_History (fun _ => map scan (seq 0 152)) empty.

Definition pholus (i : Z) (time : string) (mac : value) : Pholus_Scan.row :=
  {| Pholus_Scan.rowid := i;
     Pholus_Scan.Time := Some time;
     Pholus_Scan.MAC := mac;
     Pholus_Scan.Value := Some "v1"%string;
     Pholus_Scan.Record_Type := Some "A"%string;
     Pholus_Scan.other_columns := [] |}.

(** Three scans with the key (AA:BB, v1, A) and row ids 5, 7, 9. *)
Definition three_scans : database :=
  with_Pholus_Scan
    (fun _ =>
       [pholus 5 "2024-01-19 08:00:00" (Some "AA:BB"%string);
        pholus 7 "2024-01-19 09:00:00" (Some "AA:BB"%string);
        pholus 9 "2024-01-19 10:00:00" (Some "AA:BB"%string)])
    empty.

(** The same, the scan of row id 5 taken on 2024-01-01. *)
Definition three_scans_first_old : database :=
  with_Pholus_Scan
    (fun _ =>
       [pholus 5 "2024-01-01 08:00:00" (Some "AA:BB"%string);
        pholus 7 "2024-01-19 09:00:00" (Some "AA:BB"%string);
        pholus 9 "2024-01-19 10:00:00" (Some "AA:BB"%string)])
    empty.

(** Two scans with the key (NULL, v1, A). *)
Definition two_scans_without_mac : database :=
  with_Pholus_Scan
    (fun _ =>
       [pholus 1 "2024-01-19 08:00:00" None;
        pholus 2 "2024-01-19 09:00:00" None])
    empty.

Definition event (when : value) : Events.row :=
  {| Events.eve_DateTime := when; Events.other_columns := [] |}.

(** Events around 2024-01-10, the date ten days before [noon_20_jan]. *)
Definition events_around_cutoff : database :=
  with_Events
    (fun _ =>
       [event (Some "2024-01-09 23:59:59"%string);
        event (Some "2024-01-10"%string);
        event (Some "2024-01-10 08:00:00"%string);
        event None;
        event (Some "2024-01-10 12:00:01"%string)])
    empty.

Definition device (new : Sql.integer) (first : string) : Devices.row :=
  {| Devices.dev_NewDevice := new;
     Devices.dev_FirstConnection := Some first;
     Devices.other_columns := [] |}.

(** A new device first seen at 01:00 on 2024-01-20, one first seen the day
    before, and a known device first seen long ago. *)
Definition devices_of_today : database :=
  with_Devices
    (fun _ =>
       [device (Some 1) "2024-01-20 01:00:00";
        device (Some 1) "2024-01-19 22:00:00";
        device (Some 0) "2020-05-05 10:00:00"]%string)
    empty.

(** One new device, recorded with an empty first-connection time. *)
Definition devices_without_date : database :=
  with_Devices (fun _ => [device (Some 1) EmptyString]) empty.

(** The database refuses call number [n] (counted from 0) and no other. *)
Definition env_refusing (n : nat) : environment :=
  {| now := noon_20_jan; get_setting_value := settings 2 1;
     fault := Nat.eqb n |}.

(** A database with rows in several tables at once. *)
Definition busy : database :=
  with_Events (fun _ => tbl_Events events_around_cutoff)
    (with_Devices (fun _ => tbl_Devices devices_of_today)
       (with_Pholus_Scan (fun _ => tbl_Pholus_Scan three_scans_first_old)
          five_of_X)).

End Scenario.

(* ================================================================== *)
(** ** Further concrete cases *)
(* ================================================================== *)

Module Cases.
Import Sql Script Main.

(** A settings provider that has neither history count. *)
Definition env_without_counts : environment :=
  {| now := Scenario.noon_20_jan; get_setting_value := fun _ => Empty;
     fault := Scenario.no_fault |}.

(** The command line of the plugin with K = 3, H = 1 and N = 10. *)
Definition usual_arguments : Namespace :=
  {| pluginskeephistory := "pluginskeephistory=3";
     hourstokeepnewdevice := "hourstokeepnewdevice=1";
     daystokeepevents := "daystokeepevents=10";
     pholuskeepdays := "pholuskeepdays=30" |}.

(** The same with the second argument lacking its [=]. *)
Definition arguments_without_equals : Namespace :=
  {| pluginskeephistory := "pluginskeephistory=3";
     hourstokeepnewdevice := "hourstokeepnewdevice";
     daystokeepevents := "daystokeepevents=10";
     pholuskeepdays := "pholuskeepdays=30" |}.

Definition object (i : Z) (plugin id1 id2 data : string)
  : Plugins_Objects.row :=
  {| Plugins_Objects.rowid := i;
     Plugins_Objects.Plugin := Some plugin;
     Plugins_Objects.Object_PrimaryID := Some id1;
     Plugins_Objects.Object_SecondaryID := Some id2;
     Plugins_Objects.UserData := Some data;
     Plugins_Objects.other_columns := [] |}.

(** Three plugin objects, the first two with the same key. *)
Definition objects_with_a_twin : database :=
  with_Plugins_Objects
    (fun _ =>
       [object 4 "ARPSCAN" "aa:bb" "10.0.0.1" "";
        object 8 "ARPSCAN" "aa:bb" "10.0.0.1" "";
        object 9 "ARPSCAN" "cc:dd" "10.0.0.2" ""]%string)
    Scenario.busy.

End Cases.

Import Sql Script Summary.

(* ================================================================== *)
(** ** Tactics *)
(* ================================================================== *)

(** Symbolic execution of a run: [step_fault] splits on whether the next
    call is refused, [raised] settles the branch where it is, [returned] the
    branch where every call went through. *)

Ltac step_fault E :=
  match goal with
  | |- context [fault E ?n] =>
      let F := fresh "F" in destruct (fault E n) eqn:F; cbn
  end.

Ltac raised kN kA :=
  right; eexists; split; [reflexivity|]; cbn;
  split; [intuition discriminate|];
  split; [auto|];
  split;
  [ first [ intros _; reflexivity
          | intros H; exfalso; apply H; cbn; auto 20 ]
  | split;
    [ first [ left; reflexivity
            | right; exists kN, kA; repeat split; reflexivity ]
    | exists kN, kA; eexists; split; [cbn; reflexivity | discriminate] ] ].

Ltac returned kN kA :=
  left; split; [reflexivity|]; exists kN, kA; repeat split; reflexivity.

Ltac run_through E kN kA :=
  cbn; repeat (step_fault E; [raised kN kA|]);
  first [raised kN kA | returned kN kA].

(* ================================================================== *)
(** ** Proofs *)
(* ================================================================== *)


(** *** The order of ORDER BY *)

Lemma string_leb_refl (s : string) : String.leb s s = true.
Proof.
  unfold String.leb.
  replace (String.compare s s) with Eq; [reflexivity|].
  symmetry. apply String_as_OT.cmp_eq. reflexivity.
Qed.

Lemma string_leb_trans (a b c : string) :
  String.leb a b = true -> String.leb b c = true -> String.leb a c = true.
Proof.
  unfold String.leb.
  destruct (String.compare a b) eqn:Hab; try discriminate;
    destruct (String.compare b c) eqn:Hbc; try discriminate; intros _ _.
  - apply String.compare_eq_iff in Hab. subst. now rewrite Hbc.
  - apply String.compare_eq_iff in Hab. subst. now rewrite Hbc.
  - apply String.compare_eq_iff in Hbc. subst. now rewrite Hab.
  - apply String_as_OT.cmp_lt in Hab, Hbc.
    pose proof (String_as_OT.lt_trans _ _ _ Hab Hbc) as Hac.
    apply String_as_OT.cmp_lt in Hac.
    unfold String_as_OT.cmp in Hac. now rewrite Hac.
Qed.

Lemma string_ltb_leb (a b : string) :
  String.ltb a b = negb (String.leb b a).
Proof.
  unfold String.ltb, String.leb.
  rewrite (String.compare_antisym a b).
  destruct (String.compare b a); reflexivity.
Qed.

Lemma order_leb_refl (a : value) : order_leb a a = true.
Proof. destruct a; simpl; auto using string_leb_refl. Qed.

Lemma order_leb_total (a b : value) :
  order_leb a b = true \/ order_leb b a = true.
Proof.
  destruct a, b; simpl; auto using String.leb_total.
Qed.

Lemma order_leb_trans (a b c : value) :
  order_leb a b = true -> order_leb b c = true -> order_leb a c = true.
Proof.
  destruct a, b, c; simpl; try discriminate; auto.
  apply string_leb_trans.
Qed.

Lemma same_group_eq (a b : value) : same_group a b = true <-> a = b.
Proof.
  destruct a, b; simpl; split; try discriminate; try reflexivity.
  - intros H. apply String.eqb_eq in H. now subst.
  - intros H. injection H as ->. apply String.eqb_refl.
Qed.

Lemma same_group_refl (a : value) : same_group a a = true.
Proof. now apply same_group_eq. Qed.

(** *** ORDER BY .. DESC sorts and keeps the rows *)

Section OrderBy.
  Context {row : Type}.
  Variable key : row -> value.

Lemma insert_desc_perm (r : row) (l : list row) :
    Permutation (insert_desc key r l) (r :: l).
  Proof.
    induction l as [|x l IH]; simpl.
    - apply Permutation_refl.
    - destruct (order_leb (key x) (key r)).
      + apply Permutation_refl.
      + eapply perm_trans; [apply perm_skip, IH | apply perm_swap].
  Qed.

Lemma order_by_desc_perm (t : list row) :
    Permutation (order_by_desc key t) t.
  Proof.
    induction t as [|r t IH]; simpl.
    - apply perm_nil.
    - eapply perm_trans; [apply insert_desc_perm | now apply perm_skip].
  Qed.

Lemma order_by_desc_In (t : list row) (r : row) :
    In r (order_by_desc key t) <-> In r t.
  Proof.
    split; apply Permutation_in;
      [apply order_by_desc_perm | apply Permutation_sym, order_by_desc_perm].
  Qed.

Lemma order_by_desc_length (t : list row) :
    List.length (order_by_desc key t) = List.length t.
  Proof. apply Permutation_length, order_by_desc_perm. Qed.

Lemma insert_desc_sorted (r : row) (l : list row) :
    StronglySorted (desc key) l ->
    StronglySorted (desc key) (insert_desc key r l).
  Proof.
    induction 1 as [|x l Hl IH Hx]; simpl.
    - constructor; [constructor | constructor].
    - destruct (order_leb (key x) (key r)) eqn:Hxr.
      + constructor; [now constructor|].
        constructor; [exact Hxr|].
        rewrite Forall_forall in Hx |- *. intros y Hy.
        unfold desc in *. eapply order_leb_trans; [apply Hx, Hy | exact Hxr].
      + constructor; [exact IH|].
        rewrite Forall_forall in Hx |- *. intros y Hy.
        apply (Permutation_in _ (insert_desc_perm r l)) in Hy.
        destruct Hy as [E | Hy]; [subst y | now apply Hx].
        unfold desc. destruct (order_leb_total (key r) (key x)); congruence.
  Qed.

Lemma order_by_desc_sorted (t : list row) :
    StronglySorted (desc key) (order_by_desc key t).
  Proof.
    induction t as [|r t IH]; simpl.
    - constructor.
    - now apply insert_desc_sorted.
  Qed.

  (** In a sorted list every row of the first [n] may stand before every
      row after them. *)
Lemma sorted_firstn_skipn (n : nat) (l : list row) (a b : row) :
    StronglySorted (desc key) l ->
    In a (firstn n l) -> In b (skipn n l) -> desc key a b.
  Proof.
    intros Hs. revert n. induction Hs as [|x l Hl IH Hx]; intros n Ha Hb.
    - destruct n; contradiction.
    - destruct n as [|n]; simpl in *; [contradiction|].
      destruct Ha as [<- | Ha].
      + rewrite Forall_forall in Hx. apply Hx.
        rewrite <- (firstn_skipn n l). apply in_or_app. now right.
      + now apply (IH n).
  Qed.
End OrderBy.

(** *** Lists *)

Lemma in_list_In (x : Z) (l : list Z) : in_list x l = true <-> In x l.
Proof.
  unfold in_list. rewrite existsb_exists. split.
  - intros [y [Hy E]]. apply Z.eqb_eq in E. now subst.
  - intros H. exists x. split; [exact H | apply Z.eqb_refl].
Qed.

Lemma In_firstn {A : Type} (n : nat) (l : list A) (x : A) :
  In x (firstn n l) -> In x l.
Proof.
  intros H. rewrite <- (firstn_skipn n l). apply in_or_app. now left.
Qed.

Lemma In_firstn_or_skipn {A : Type} (n : nat) (l : list A) (x : A) :
  In x l -> In x (firstn n l) \/ In x (skipn n l).
Proof.
  intros H. rewrite <- (firstn_skipn n l) in H. now apply in_app_or in H.
Qed.

Lemma NoDup_firstn {A : Type} (n : nat) (l : list A) :
  NoDup l -> NoDup (firstn n l).
Proof.
  intros H. rewrite <- (firstn_skipn n l) in H.
  now apply NoDup_app_remove_r in H.
Qed.

Lemma NoDup_map_injective {A B : Type} (f : A -> B) (l : list A) (a b : A) :
  NoDup (map f l) -> In a l -> In b l -> f a = f b -> a = b.
Proof.
  induction l as [|x l IH]; simpl; intros Hnd Ha Hb E; [contradiction|].
  inversion Hnd as [|? ? Hx Hl]; subst.
  destruct Ha as [-> | Ha], Hb as [-> | Hb]; auto.
  - exfalso. apply Hx. rewrite E. now apply in_map.
  - exfalso. apply Hx. rewrite <- E. now apply in_map.
Qed.

Lemma filter_all {A : Type} (f : A -> bool) (l : list A) :
  (forall x, In x l -> f x = true) -> filter f l = l.
Proof.
  intros H. apply forallb_filter_id, forallb_forall, H.
Qed.

Lemma filter_comm {A : Type} (f g : A -> bool) (l : list A) :
  filter f (filter g l) = filter g (filter f l).
Proof.
  induction l as [|x l IH]; simpl; [reflexivity|].
  destruct (f x) eqn:Hf, (g x) eqn:Hg; simpl; rewrite ?Hf, ?Hg, IH;
    reflexivity.
Qed.

Lemma filter_idem {A : Type} (f : A -> bool) (l : list A) :
  filter f (filter f l) = filter f l.
Proof.
  apply filter_all. intros x H. now apply filter_In in H.
Qed.

Lemma NoDup_map_filter {A B : Type} (f : A -> B) (g : A -> bool)
    (l : list A) :
  NoDup (map f l) -> NoDup (map f (filter g l)).
Proof.
  induction l as [|x l IH]; simpl; intros H; [constructor|].
  inversion H as [|? ? Hx Hl]; subst.
  destruct (g x); simpl; [constructor|]; auto.
  intros Hin. apply Hx. apply in_map_iff in Hin as [y [E Hy]].
  apply filter_In in Hy as [Hy _]. rewrite <- E. now apply in_map.
Qed.

(** A row is kept by [Index IN (SELECT Index FROM S)] exactly when it is in
    [S], once the index identifies the row. *)
Lemma keep_by_index_In {row : Type} (Index : row -> Z) (t S : list row)
    (r : row) :
  NoDup (map Index t) ->
  (forall x, In x S -> In x t) ->
  In r (filter (fun r => in_list (Index r) (map Index S)) t) <-> In r S.
Proof.
  intros Hnd Hsub. rewrite filter_In, in_list_In, in_map_iff. split.
  - intros [Hr [x [E Hx]]].
    now rewrite <- (NoDup_map_injective Index t x r Hnd (Hsub x Hx) Hr E).
  - intros Hr. split; [now apply Hsub | now exists r].
Qed.

(** *** ROW_NUMBER() OVER (PARTITION BY .. ORDER BY .. DESC) *)

Section RowNumber.
  Context {row : Type}.

Lemma number_from_above (K n : Z) (l : list row) :
    K < n -> filter (fun x => snd x <=? K) (number_from n l) = [].
  Proof.
    revert n. induction l as [|r l IH]; intros n Hn; simpl; [reflexivity|].
    destruct (n <=? K) eqn:E; [apply Z.leb_le in E; lia|].
    apply IH. lia.
  Qed.

Lemma number_from_filter (K n : Z) (l : list row) :
    filter (fun x => snd x <=? K) (number_from n l)
    = number_from n (firstn (Z.to_nat (K - n + 1)) l).
  Proof.
    revert n. induction l as [|r l IH]; intros n; simpl.
    - now rewrite firstn_nil.
    - destruct (n <=? K) eqn:E.
      + apply Z.leb_le in E.
        replace (Z.to_nat (K - n + 1)) with (S (Z.to_nat (K - (n + 1) + 1)))
          by lia.
        simpl. now rewrite IH.
      + apply Z.leb_gt in E.
        replace (Z.to_nat (K - n + 1)) with 0%nat by lia.
        simpl. apply number_from_above. lia.
  Qed.

Lemma number_from_rows (n : Z) (l : list row) :
    map fst (number_from n l) = l.
  Proof.
    revert n. induction l as [|r l IH]; intros n; simpl; [reflexivity|].
    now rewrite IH.
  Qed.

Lemma distinct_In (l : list value) (v : value) :
    In v (distinct l) <-> In v l.
  Proof.
    induction l as [|w l IH]; simpl; [reflexivity|].
    rewrite filter_In, IH. split.
    - intros [E | [H _]]; auto.
    - intros [E | H]; auto.
      destruct (same_group v w) eqn:S.
      + apply same_group_eq in S. auto.
      + right. split; [exact H | reflexivity].
  Qed.

  Variable Index : row -> Z.
  Variables part key : row -> value.
  Variable K : Z.

  (** The rows ranked [<= K]: the first [K] of each partition. *)
Lemma ranked_rows (t : list row) :
    map fst (filter (fun x => snd x <=? K) (row_number_over part key t))
    = flat_map
        (fun p => firstn (Z.to_nat K) (order_by_desc key (partition_of part p t)))
        (distinct (map part t)).
  Proof.
    unfold row_number_over, partition_of.
    induction (distinct (map part t)) as [|p ps IH]; simpl; [reflexivity|].
    rewrite filter_app, map_app, IH, number_from_filter, number_from_rows.
    now replace (K - 1 + 1) with K by lia.
  Qed.

Lemma trim_ranked_eq (t : list row) :
    trim_ranked Index part key K t
    = filter
        (fun r =>
           in_list (Index r)
             (map Index
                (flat_map
                   (fun p =>
                      firstn (Z.to_nat K)
                        (order_by_desc key (partition_of part p t)))
                   (distinct (map part t)))))
        t.
  Proof.
    unfold trim_ranked. rewrite <- ranked_rows, map_map. reflexivity.
  Qed.

Lemma partition_of_In (p : value) (t : list row) (r : row) :
    In r (partition_of part p t) <-> In r t /\ part r = p.
  Proof.
    unfold partition_of. now rewrite filter_In, same_group_eq.
  Qed.

Lemma top_of_partition_In (p : value) (t : list row) (r : row) :
    In r (firstn (Z.to_nat K) (order_by_desc key (partition_of part p t))) ->
    In r t /\ part r = p.
  Proof.
    intros H. apply In_firstn, order_by_desc_In in H.
    now apply partition_of_In.
  Qed.

  (** A row survives the trimming exactly when it is among the first [K] of
      its own partition. *)
Lemma trim_ranked_In (t : list row) (r : row) :
    NoDup (map Index t) ->
    In r (trim_ranked Index part key K t)
    <-> In r (firstn (Z.to_nat K)
                (order_by_desc key (partition_of part (part r) t))).
  Proof.
    intros Hnd. rewrite trim_ranked_eq, keep_by_index_In; [|exact Hnd|].
    - rewrite in_flat_map. split.
      + intros [p [_ H]].
        now destruct (top_of_partition_In p t r H) as [_ <-].
      + intros H. exists (part r). split; [|exact H].
        apply distinct_In, in_map. now apply top_of_partition_In in H.
    - intros x Hx. apply in_flat_map in Hx as [p [_ H]].
      now apply top_of_partition_In in H.
  Qed.

Lemma trim_ranked_incl (t : list row) (r : row) :
    In r (trim_ranked Index part key K t) -> In r t.
  Proof. unfold trim_ranked. intros H. now apply filter_In in H. Qed.

  (** What is left of a partition is its first [K] rows by descending key. *)
Lemma trim_ranked_partition (p : value) (t : list row) :
    NoDup (map Index t) ->
    Permutation
      (partition_of part p (trim_ranked Index part key K t))
      (firstn (Z.to_nat K) (order_by_desc key (partition_of part p t))).
  Proof.
    intros Hnd. pose proof (NoDup_map_inv _ _ Hnd) as Ht.
    apply NoDup_Permutation.
    - unfold partition_of, trim_ranked. now repeat apply NoDup_filter.
    - apply NoDup_firstn.
      eapply Permutation_NoDup;
        [apply Permutation_sym, order_by_desc_perm|].
      unfold partition_of. now apply NoDup_filter.
    - intros r. rewrite partition_of_In, trim_ranked_In by exact Hnd. split.
      + now intros [H <-].
      + intros H. destruct (top_of_partition_In p t r H) as [_ E].
        split; [now rewrite E | exact E].
  Qed.

Lemma trim_ranked_count (p : value) (t : list row) :
    NoDup (map Index t) ->
    (List.length (partition_of part p (trim_ranked Index part key K t))
     <= Z.to_nat K)%nat.
  Proof.
    intros Hnd.
    rewrite (Permutation_length (trim_ranked_partition p t Hnd)).
    apply firstn_le_length.
  Qed.

  (** Every row kept may stand before every row deleted from its partition. *)
Lemma trim_ranked_newest (t : list row) (kept dropped : row) :
    NoDup (map Index t) ->
    In kept (trim_ranked Index part key K t) ->
    deleted_from t (trim_ranked Index part key K t) dropped ->
    part dropped = part kept ->
    desc key kept dropped.
  Proof.
    intros Hnd Hk [Hd Hnot] Hp.
    rewrite trim_ranked_In in Hk, Hnot by exact Hnd. rewrite Hp in Hnot.
    apply (sorted_firstn_skipn key (Z.to_nat K)
             (order_by_desc key (partition_of part (part kept) t)));
      [apply order_by_desc_sorted | exact Hk |].
    assert (In dropped (order_by_desc key (partition_of part (part kept) t)))
      as H by now apply order_by_desc_In, partition_of_In.
    apply (In_firstn_or_skipn (Z.to_nat K)) in H. tauto.
  Qed.

  (** A partition of at most [K] rows loses none. *)
Lemma trim_ranked_small (p : value) (t : list row) :
    NoDup (map Index t) ->
    (List.length (partition_of part p t) <= Z.to_nat K)%nat ->
    partition_of part p (trim_ranked Index part key K t)
    = partition_of part p t.
  Proof.
    intros Hnd Hlen. unfold partition_of at 1. unfold trim_ranked at 1.
    rewrite filter_comm. apply filter_all. intros r Hr.
    assert (In r (trim_ranked Index part key K t)) as H.
    { apply trim_ranked_In; [exact Hnd|].
      apply partition_of_In in Hr as [Hr E]. rewrite E.
      rewrite firstn_all2 by now rewrite order_by_desc_length.
      apply order_by_desc_In, partition_of_In. now split. }
    unfold trim_ranked in H. now apply filter_In in H.
  Qed.

Lemma trim_ranked_NoDup (t : list row) :
    NoDup (map Index t) -> NoDup (map Index (trim_ranked Index part key K t)).
  Proof. unfold trim_ranked. apply NoDup_map_filter. Qed.

  (** Trimming a second time deletes nothing. *)
Lemma trim_ranked_idem (t : list row) :
    NoDup (map Index t) ->
    trim_ranked Index part key K (trim_ranked Index part key K t)
    = trim_ranked Index part key K t.
  Proof.
    intros Hnd.
    set (t' := trim_ranked Index part key K t).
    assert (NoDup (map Index t')) as Hnd' by now apply trim_ranked_NoDup.
    unfold trim_ranked at 1. apply filter_all. intros r Hr.
    assert (In r (trim_ranked Index part key K t')) as H.
    { apply trim_ranked_In; [exact Hnd'|].
      rewrite firstn_all2.
      - apply order_by_desc_In, partition_of_In. now split.
      - rewrite order_by_desc_length. now apply trim_ranked_count. }
    unfold trim_ranked in H. now apply filter_In in H.
  Qed.
End RowNumber.

(** *** Online_History: ORDER BY Scan_Date DESC LIMIT 150 *)

Lemma delete_online_history_In (t : list Online_History.row)
    (r : Online_History.row) :
  NoDup (map Online_History.Index t) ->
  In r (delete_online_history t)
  <-> In r (limit 150 (order_by_desc Online_History.Scan_Date t)).
Proof.
  intros Hnd. unfold delete_online_history.
  apply keep_by_index_In; [exact Hnd|].
  intros x Hx. unfold limit in Hx.
  now apply In_firstn, order_by_desc_In in Hx.
Qed.

Lemma delete_online_history_perm (t : list Online_History.row) :
  NoDup (map Online_History.Index t) ->
  Permutation (delete_online_history t)
    (limit 150 (order_by_desc Online_History.Scan_Date t)).
Proof.
  intros Hnd. pose proof (NoDup_map_inv _ _ Hnd) as Ht.
  apply NoDup_Permutation.
  - unfold delete_online_history. now apply NoDup_filter.
  - apply NoDup_firstn.
    eapply Permutation_NoDup; [apply Permutation_sym, order_by_desc_perm|].
    exact Ht.
  - intros r. now apply delete_online_history_In.
Qed.

Lemma delete_online_history_count (t : list Online_History.row) :
  NoDup (map Online_History.Index t) ->
  (List.length (delete_online_history t) <= 150)%nat.
Proof.
  intros Hnd. rewrite (Permutation_length (delete_online_history_perm t Hnd)).
  apply firstn_le_length.
Qed.

Lemma delete_online_history_newest (t : list Online_History.row)
    (kept dropped : Online_History.row) :
  NoDup (map Online_History.Index t) ->
  In kept (delete_online_history t) ->
  deleted_from t (delete_online_history t) dropped ->
  desc Online_History.Scan_Date kept dropped.
Proof.
  intros Hnd Hk [Hd Hnot].
  rewrite delete_online_history_In in Hk, Hnot by exact Hnd.
  apply (sorted_firstn_skipn Online_History.Scan_Date 150
           (order_by_desc Online_History.Scan_Date t));
    [apply order_by_desc_sorted | exact Hk |].
  apply (order_by_desc_In Online_History.Scan_Date) in Hd.
  apply (In_firstn_or_skipn 150) in Hd. unfold limit in Hnot. tauto.
Qed.

Lemma delete_online_history_idem (t : list Online_History.row) :
  NoDup (map Online_History.Index t) ->
  delete_online_history (delete_online_history t) = delete_online_history t.
Proof.
  intros Hnd. set (t' := delete_online_history t).
  assert (NoDup (map Online_History.Index t')) as Hnd'
    by now apply NoDup_map_filter.
  unfold delete_online_history at 1. apply filter_all. intros r Hr.
  assert (In r (delete_online_history t')) as H.
  { apply delete_online_history_In; [exact Hnd'|]. unfold limit.
    rewrite firstn_all2.
    - now apply order_by_desc_In.
    - rewrite order_by_desc_length. now apply delete_online_history_count. }
  unfold delete_online_history in H. now apply filter_In in H.
Qed.

(** *** DELETE .. WHERE *)

Lemma delete_where_In {row : Type} (cond : row -> condition) (t : list row)
    (r : row) :
  In r (delete_where cond t) <-> In r t /\ cond r <> Some true.
Proof.
  unfold delete_where. rewrite filter_In.
  destruct (cond r) as [[|]|]; simpl; intuition congruence.
Qed.

Lemma delete_where_idem {row : Type} (cond : row -> condition)
    (t : list row) :
  delete_where cond (delete_where cond t) = delete_where cond t.
Proof. apply filter_idem. Qed.

Lemma delete_where_ext {row : Type} (c1 c2 : row -> condition)
    (t : list row) :
  (forall r, c1 r = c2 r) -> delete_where c1 t = delete_where c2 t.
Proof.
  intros H. unfold delete_where. apply filter_ext. intros r. now rewrite H.
Qed.

(** *** Duplicates: rowid > (SELECT MIN(rowid) ..) *)

Lemma min_rowid_spec (l : list Z) (m : Z) :
  min_rowid l = Some m -> In m l /\ forall x, In x l -> m <= x.
Proof.
  revert m. induction l as [|a l IH]; simpl; intros m H; [discriminate|].
  destruct (min_rowid l) as [m'|] eqn:E.
  - injection H as <-. destruct (IH m' eq_refl) as [Hin Hle]. split.
    + destruct (Z.min_spec a m') as [[_ ->] | [_ ->]]; auto.
    + intros x [<- | Hx]; [lia|]. specialize (Hle x Hx). lia.
  - injection H as <-. destruct l; [|simpl in E; destruct (min_rowid l); discriminate].
    split; [now left|]. intros x [<- | []]. lia.
Qed.

Lemma min_rowid_some (l : list Z) (x : Z) :
  In x l -> exists m, min_rowid l = Some m.
Proof.
  destruct l as [|a l]; [contradiction|]. intros _. simpl.
  destruct (min_rowid l); eauto.
Qed.

Section Duplicates.
  Context {row : Type}.
  Variable rowid : row -> Z.
  Variable same_key : row -> row -> condition.
  Hypothesis same_key_sym :
    forall a b, holds (same_key a b) = true -> holds (same_key b a) = true.
  Hypothesis same_key_trans :
    forall a b c, holds (same_key a b) = true -> holds (same_key b c) = true ->
                  holds (same_key a c) = true.

Lemma delete_duplicates_In (t : list row) (r : row) :
    In r (delete_duplicates rowid same_key t)
    <-> In r t
        /\ forall p2, In p2 t -> holds (same_key r p2) = true ->
                      rowid r <= rowid p2.
  Proof.
    unfold delete_duplicates. rewrite delete_where_In.
    set (G := filter (fun p2 => holds (same_key r p2)) t).
    split; intros [Hr H]; (split; [exact Hr|]).
    - intros p2 Hp2 Hk.
      assert (In (rowid p2) (map rowid G)) as Hin
        by (apply in_map, filter_In; now split).
      destruct (min_rowid_some _ _ Hin) as [m Hm]. rewrite Hm in H.
      apply min_rowid_spec in Hm as [_ Hle]. specialize (Hle _ Hin).
      simpl in H. destruct (m <? rowid r) eqn:E; [congruence|].
      apply Z.ltb_ge in E. lia.
    - destruct (min_rowid (map rowid G)) as [m|] eqn:Hm; [|discriminate].
      apply min_rowid_spec in Hm as [Hin _].
      apply in_map_iff in Hin as [p2 [<- Hp2]].
      apply filter_In in Hp2 as [Hp2 Hk]. specialize (H p2 Hp2 Hk).
      simpl. destruct (rowid p2 <? rowid r) eqn:E; [|discriminate].
      apply Z.ltb_lt in E. lia.
  Qed.

  (** Two rows left with equal keys have the same row id. *)
Lemma delete_duplicates_unique (t : list row) (r1 r2 : row) :
    In r1 (delete_duplicates rowid same_key t) ->
    In r2 (delete_duplicates rowid same_key t) ->
    holds (same_key r1 r2) = true ->
    rowid r1 = rowid r2.
  Proof.
    intros H1 H2 Hk.
    apply delete_duplicates_In in H1 as [Hr1 Hmin1].
    apply delete_duplicates_In in H2 as [Hr2 Hmin2].
    specialize (Hmin1 r2 Hr2 Hk).
    specialize (Hmin2 r1 Hr1 (same_key_sym _ _ Hk)). lia.
  Qed.

  (** Of every group of rows with equal keys, a row of smallest row id is
      left. *)
Lemma delete_duplicates_keeps_min (t : list row) (r : row) :
    In r t -> holds (same_key r r) = true ->
    exists m,
      In m (delete_duplicates rowid same_key t)
      /\ holds (same_key r m) = true
      /\ forall r', In r' t -> holds (same_key r r') = true ->
                    rowid m <= rowid r'.
  Proof.
    intros Hr Hrr.
    set (G := filter (fun p2 => holds (same_key r p2)) t).
    assert (In (rowid r) (map rowid G)) as Hin
      by (apply in_map, filter_In; now split).
    destruct (min_rowid_some _ _ Hin) as [z Hz].
    apply min_rowid_spec in Hz as [Hzin Hzle].
    apply in_map_iff in Hzin as [m [<- Hm]].
    apply filter_In in Hm as [Hm Hk].
    assert (forall r', In r' t -> holds (same_key r r') = true ->
                       rowid m <= rowid r') as Hmin.
    { intros r' Hr' Hk'. apply Hzle, in_map, filter_In. now split. }
    exists m. split; [|now split].
    apply delete_duplicates_In. split; [exact Hm|].
    intros p2 Hp2 Hk2. apply Hmin; [exact Hp2|].
    now apply (same_key_trans r m p2).
  Qed.

  (** A second pass deletes nothing. *)
Lemma delete_duplicates_idem (t : list row) :
    delete_duplicates rowid same_key (delete_duplicates rowid same_key t)
    = delete_duplicates rowid same_key t.
  Proof.
    set (t' := delete_duplicates rowid same_key t).
    unfold delete_duplicates at 1. apply filter_all. intros r Hr.
    assert (In r (delete_duplicates rowid same_key t')) as H.
    { apply delete_duplicates_In. split; [exact Hr|].
      intros p2 Hp2 Hk.
      apply delete_duplicates_In in Hr as [_ Hmin]. apply Hmin; [|exact Hk].
      now apply delete_duplicates_In in Hp2. }
    unfold delete_duplicates, delete_where in H. now apply filter_In in H.
  Qed.
End Duplicates.

Lemma text_eq_holds (a b : value) :
  holds (text_eq a b) = true <-> exists s, a = Some s /\ b = Some s.
Proof.
  destruct a as [x|], b as [y|]; simpl; split;
    try discriminate; try (intros [s [? ?]]; discriminate).
  - destruct (String.eqb_spec x y); [subst; eauto | discriminate].
  - intros [s [E1 E2]]. injection E1 as ->. injection E2 as ->.
    now rewrite String.eqb_refl.
Qed.

Lemma sql_and_holds (a b : condition) :
  holds (sql_and a b) = true <-> holds a = true /\ holds b = true.
Proof.
  destruct a as [[|]|], b as [[|]|]; simpl; intuition discriminate.
Qed.

Lemma pholus_same_key_holds (r p2 : Pholus_Scan.row) :
  holds (pholus_same_key r p2) = true
  <-> exists mac v ty,
        (Pholus_Scan.MAC r = Some mac /\ Pholus_Scan.MAC p2 = Some mac)
        /\ (Pholus_Scan.Value r = Some v /\ Pholus_Scan.Value p2 = Some v)
        /\ (Pholus_Scan.Record_Type r = Some ty
            /\ Pholus_Scan.Record_Type p2 = Some ty).
Proof.
  unfold pholus_same_key. rewrite !sql_and_holds, !text_eq_holds. split.
  - intros [[a Ha] [[b Hb] [c Hc]]]. exists a, b, c. tauto.
  - intros [a [b [c [Ha [Hb Hc]]]]]. repeat split; eauto.
Qed.

Lemma pholus_same_key_sym (a b : Pholus_Scan.row) :
  holds (pholus_same_key a b) = true -> holds (pholus_same_key b a) = true.
Proof.
  rewrite !pholus_same_key_holds.
  intros [x [y [z [[? ?] [[? ?] [? ?]]]]]]. exists x, y, z. auto.
Qed.

Lemma pholus_same_key_trans (a b c : Pholus_Scan.row) :
  holds (pholus_same_key a b) = true -> holds (pholus_same_key b c) = true ->
  holds (pholus_same_key a c) = true.
Proof.
  rewrite !pholus_same_key_holds.
  intros [x [y [z [[? ?] [[? ?] [? ?]]]]]]
         [x' [y' [z' [[? ?] [[? ?] [? ?]]]]]].
  exists x, y, z. repeat split; congruence.
Qed.

Lemma objects_same_key_holds (r p2 : Plugins_Objects.row) :
  holds (objects_same_key r p2) = true
  <-> exists pl id1 id2 ud,
        (Plugins_Objects.Plugin r = Some pl
         /\ Plugins_Objects.Plugin p2 = Some pl)
        /\ (Plugins_Objects.Object_PrimaryID r = Some id1
            /\ Plugins_Objects.Object_PrimaryID p2 = Some id1)
        /\ (Plugins_Objects.Object_SecondaryID r = Some id2
            /\ Plugins_Objects.Object_SecondaryID p2 = Some id2)
        /\ (Plugins_Objects.UserData r = Some ud
            /\ Plugins_Objects.UserData p2 = Some ud).
Proof.
  unfold objects_same_key. rewrite !sql_and_holds, !text_eq_holds. split.
  - intros [[a Ha] [[b Hb] [[c Hc] [d Hd]]]]. exists a, b, c, d. tauto.
  - intros [a [b [c [d [Ha [Hb [Hc Hd]]]]]]]. repeat split; eauto.
Qed.

Lemma objects_same_key_sym (a b : Plugins_Objects.row) :
  holds (objects_same_key a b) = true -> holds (objects_same_key b a) = true.
Proof.
  rewrite !objects_same_key_holds.
  intros [x [y [z [u [[? ?] [[? ?] [[? ?] [? ?]]]]]]]].
  exists x, y, z, u. auto.
Qed.

Lemma objects_same_key_trans (a b c : Plugins_Objects.row) :
  holds (objects_same_key a b) = true -> holds (objects_same_key b c) = true ->
  holds (objects_same_key a c) = true.
Proof.
  rewrite !objects_same_key_holds.
  intros [x [y [z [u [[? ?] [[? ?] [[? ?] [? ?]]]]]]]]
         [x' [y' [z' [u' [[? ?] [[? ?] [[? ?] [? ?]]]]]]]].
  exists x, y, z, u. repeat split; congruence.
Qed.

(** *** The run, call by call *)

(** Every run either returns, having made all the calls of [script] and
    left the cleaned rows on disk with the connection closed, or raises
    after a proper prefix of those calls. *)
Lemma run_outcome (E : environment) (d : Z) (p : setting) (h k : Z)
    (db : database) :
  let r := run E d p h k db in
  (fst r = Return tt
   /\ exists kN kA,
       get_setting_value E "DBCLNP_NOTIFI_HIST" = Int kN
       /\ get_setting_value E "WORKFLOWS_AppEvents_hist" = Int kA
       /\ snd r
          = {| disk := cleaned (now E) d p h k kN kA db;
               pending := None;
               is_open := false;
               calls := script d p h k kN kA |})
  \/ (exists e,
        fst r = Raise e
        /\ ~ In Close (calls (snd r))
        /\ (calls (snd r) = [] \/ is_open (snd r) = true)
        /\ (~ In Commit (calls (snd r)) -> disk (snd r) = db)
        /\ (disk (snd r) = db
            \/ exists kN kA,
                 get_setting_value E "DBCLNP_NOTIFI_HIST" = Int kN
                 /\ get_setting_value E "WORKFLOWS_AppEvents_hist" = Int kA
                 /\ disk (snd r) = cleaned (now E) d p h k kN kA db)
        /\ exists kN kA rest,
             calls (snd r) ++ rest = script d p h k kN kA /\ rest <> []).
Proof.
  unfold run, cleanup_database, bind, connect, execute, commit, close, ret,
    at_rest, called, view, cleaned, script, deletes, expire_new_devices,
    age_out_pholus.
  cbn.
  destruct (get_setting_value E "DBCLNP_NOTIFI_HIST") as [|kN] eqn:HN;
    destruct (get_setting_value E "WORKFLOWS_AppEvents_hist") as [|kA] eqn:HA;
    destruct (h =? 0) eqn:Hh;
    destruct (pholus_enabled p) as [pd|] eqn:Hp.
  all: first [ run_through E kN kA | run_through E kN 0
             | run_through E 0 kA | run_through E 0 0 ].
Qed.

Lemma run_completes (E : environment) (d : Z) (p : setting) (h k : Z)
    (db : database) :
  completes (run E d p h k db) ->
  exists kN kA,
    get_setting_value E "DBCLNP_NOTIFI_HIST" = Int kN
    /\ get_setting_value E "WORKFLOWS_AppEvents_hist" = Int kA
    /\ snd (run E d p h k db)
       = {| disk := cleaned (now E) d p h k kN kA db;
            pending := None;
            is_open := false;
            calls := script d p h k kN kA |}.
Proof.
  unfold completes. intros H.
  destruct (run_outcome E d p h k db) as [[_ R] | [e [R _]]];
    [exact R | congruence].
Qed.

Lemma after_run_completes (E : environment) (d : Z) (p : setting) (h k : Z)
    (db : database) :
  completes (run E d p h k db) ->
  exists kN kA,
    get_setting_value E "DBCLNP_NOTIFI_HIST" = Int kN
    /\ get_setting_value E "WORKFLOWS_AppEvents_hist" = Int kA
    /\ after_run E d p h k db = cleaned (now E) d p h k kN kA db.
Proof.
  intros H. destruct (run_completes E d p h k db H) as [kN [kA [HN [HA R]]]].
  exists kN, kA. unfold after_run. now rewrite R.
Qed.

Lemma after_run_cases (E : environment) (d : Z) (p : setting) (h k : Z)
    (db : database) :
  after_run E d p h k db = db
  \/ exists kN kA,
       get_setting_value E "DBCLNP_NOTIFI_HIST" = Int kN
       /\ get_setting_value E "WORKFLOWS_AppEvents_hist" = Int kA
       /\ after_run E d p h k db = cleaned (now E) d p h k kN kA db.
Proof.
  unfold after_run.
  destruct (run_outcome E d p h k db)
    as [[_ [kN [kA [HN [HA R]]]]] | [e [_ [_ [_ [_ [R _]]]]]]].
  - right. exists kN, kA. now rewrite R.
  - exact R.
Qed.

(** *** Keeping the newest rows *)

Section KeepsNewest.
  Context {row : Type}.
  Variable Index : row -> Z.
  Variables part key : row -> value.
  Variable K : Z.

Lemma trim_ranked_keeps_newest (p : value) (t : list row) :
    NoDup (map Index t) -> 0 <= K ->
    keeps_newest key K (partition_of part p t)
      (partition_of part p (trim_ranked Index part key K t)).
  Proof.
    intros Hnd HK. repeat split.
    - pose proof (trim_ranked_count Index part key K p t Hnd). lia.
    - now apply trim_ranked_partition.
    - intros kept dropped Hk [Hd Hnot].
      apply partition_of_In in Hk as [Hk Ek].
      apply partition_of_In in Hd as [Hd Ed].
      apply (trim_ranked_newest Index part key K t); auto; [|congruence].
      split; [exact Hd|]. intros Hin. apply Hnot.
      apply partition_of_In. now split.
  Qed.

  (** Whether a row of [t] is kept, as the filter of [trim_ranked] tests it. *)
Lemma trim_ranked_test (t : list row) (r : row) :
    NoDup (map Index t) -> In r t ->
    in_list (Index r)
      (map (fun x => Index (fst x))
         (filter (fun x => snd x <=? K) (row_number_over part key t)))
    = true
    <-> In r (firstn (Z.to_nat K)
                (order_by_desc key (partition_of part (part r) t))).
  Proof.
    intros Hnd Hr. rewrite <- (trim_ranked_In Index part key K t r Hnd).
    unfold trim_ranked. rewrite filter_In. tauto.
  Qed.

  (** What is left of a partition depends on the rows of that partition
      only. *)
Lemma trim_ranked_local (p : value) (t t' : list row) :
    NoDup (map Index t) -> NoDup (map Index t') ->
    partition_of part p t' = partition_of part p t ->
    partition_of part p (trim_ranked Index part key K t')
    = partition_of part p (trim_ranked Index part key K t).
  Proof.
    intros Hnd Hnd' Heq.
    unfold partition_of, trim_ranked in *.
    rewrite (filter_comm _ _ t'), (filter_comm _ _ t), Heq.
    apply filter_ext_in. intros r Hr.
    assert (In r t /\ part r = p) as [Hrt Hp]
      by now apply (partition_of_In part p t r).
    assert (In r t') as Hrt'.
    { unfold partition_of. rewrite <- Heq in Hr. now apply filter_In in Hr. }
    pose proof (trim_ranked_test t r Hnd Hrt) as H.
    pose proof (trim_ranked_test t' r Hnd' Hrt') as H'.
    unfold partition_of in H, H'. rewrite Hp in H, H'. rewrite Heq in H'.
    rewrite <- H in H'.
    match goal with
    | |- ?a = ?b => destruct a, b; try reflexivity
    end; [symmetry; now apply H' | now apply H'].
  Qed.

Lemma partition_of_constant (c : value) (t : list row) :
    partition_of (fun _ : row => c) c t = t.
  Proof.
    unfold partition_of. apply filter_all. intros. apply same_group_refl.
  Qed.
End KeepsNewest.

Lemma delete_online_history_keeps_newest (t : list Online_History.row) :
  NoDup (map Online_History.Index t) ->
  keeps_newest Online_History.Scan_Date 150 t (delete_online_history t).
Proof.
  intros Hnd. repeat split.
  - pose proof (delete_online_history_count t Hnd). lia.
  - now apply delete_online_history_perm.
  - intros kept dropped Hk Hd.
    now apply (delete_online_history_newest t).
Qed.

(** *** The claims on the history tables *)

(** C1.  After a run that returns, with pluginsKeepHistory = K (K >= 0) and
    "Index" identifying the rows, every plugin is left with at most K rows
    of Plugins_History: the first K of its rows by descending
    DateTimeChanged, each at least as new as every row of that plugin that
    was deleted.  The rows left for a plugin are the same whatever rows the
    other plugins have, and a plugin with at most K rows loses none. *)
Theorem plugins_history_keeps_newest_per_plugin
    (E : environment) (DAYS_TO_KEEP_EVENTS : Z) (PHOLUS_DAYS_DATA : setting)
    (HRS_TO_KEEP_NEWDEV K : Z) (db : database) (p : value) :
  completes (run E DAYS_TO_KEEP_EVENTS PHOLUS_DAYS_DATA HRS_TO_KEEP_NEWDEV K db) ->
  NoDup (map Plugins_History.Index (tbl_Plugins_History db)) ->
  0 <= K ->
  let before := partition_of Plugins_History.Plugin p (tbl_Plugins_History db) in
  let after :=
    partition_of Plugins_History.Plugin p
      (tbl_Plugins_History
         (after_run E DAYS_TO_KEEP_EVENTS PHOLUS_DAYS_DATA HRS_TO_KEEP_NEWDEV
            K db)) in
  keeps_newest Plugins_History.DateTimeChanged K before after
  /\ (forall t',
        NoDup (map Plugins_History.Index t') ->
        partition_of Plugins_History.Plugin p t' = before ->
        partition_of Plugins_History.Plugin p (trim_plugins_history K t')
        = after)
  /\ (Z.of_nat (List.length before) <= K -> after = before).
Proof.
  intros Hrun Hnd HK before after.
  destruct (after_run_completes _ _ _ _ _ _ Hrun) as [kN [kA [_ [_ R]]]].
  subst before after. rewrite R. cbn [tbl_Plugins_History cleaned].
  unfold trim_plugins_history. repeat split.
  - apply (trim_ranked_keeps_newest Plugins_History.Index); assumption.
  - apply (trim_ranked_keeps_newest Plugins_History.Index); assumption.
  - apply (trim_ranked_keeps_newest Plugins_History.Index); assumption.
  - intros t' Hnd' Heq. now apply trim_ranked_local.
  - intros Hlen. apply trim_ranked_small; [exact Hnd | lia].
Qed.

(** The run of the five rows of plugin X with K = 3 leaves the three newest
    of them, and both rows of plugin Y. *)
Example five_of_X_run :
  map Plugins_History.Index
    (tbl_Plugins_History
       (after_run (Scenario.env Scenario.noon_20_jan) 90 Empty 0 3
          Scenario.five_of_X))
  = [2; 4; 5; 6; 7].
Proof. vm_compute. reflexivity. Qed.

Lemma plugins_history_keeps_newest_per_plugin_witness :
  let E := Scenario.env Scenario.noon_20_jan in
  let db := Scenario.five_of_X in
  let X := Some "X"%string in
  completes (run E 90 Empty 0 3 db)
  /\ NoDup (map Plugins_History.Index (tbl_Plugins_History db))
  /\ 0 <= 3
  /\ keeps_newest Plugins_History.DateTimeChanged 3
       (partition_of Plugins_History.Plugin X (tbl_Plugins_History db))
       (partition_of Plugins_History.Plugin X
          (tbl_Plugins_History (after_run E 90 Empty 0 3 db)))
  /\ map Plugins_History.Index
       (partition_of Plugins_History.Plugin X
          (tbl_Plugins_History (after_run E 90 Empty 0 3 db)))
     = [4; 6; 7].
Proof.
  intros E db X.
  assert (completes (run E 90 Empty 0 3 db)) as Hrun by reflexivity.
  assert (NoDup (map Plugins_History.Index (tbl_Plugins_History db))) as Hnd.
  { repeat constructor; simpl; intuition discriminate. }
  assert (0 <= 3) as HK by lia.
  split; [exact Hrun|]. split; [exact Hnd|]. split; [exact HK|]. split.
  - exact (proj1 (plugins_history_keeps_newest_per_plugin E 90 Empty 0 3 db X
                    Hrun Hnd HK)).
  - reflexivity.
Defined.

(** C2.  Notifications and AppEvents are ranked in one partition, the
    partition key being the same text on every row: after a run that
    returns, with the history count K (K >= 0) read from the settings and
    "Index" identifying the rows, each table as a whole is left with at most
    K rows, the first K by descending DateTimeCreated, each at least as new
    as every row deleted. *)
Theorem notifications_and_appevents_capped_globally
    (E : environment) (DAYS_TO_KEEP_EVENTS : Z) (PHOLUS_DAYS_DATA : setting)
    (HRS_TO_KEEP_NEWDEV PLUGINS_KEEP_HIST KN KA : Z) (db : database) :
  completes (run E DAYS_TO_KEEP_EVENTS PHOLUS_DAYS_DATA HRS_TO_KEEP_NEWDEV
               PLUGINS_KEEP_HIST db) ->
  get_setting_value E "DBCLNP_NOTIFI_HIST" = Int KN ->
  get_setting_value E "WORKFLOWS_AppEvents_hist" = Int KA ->
  NoDup (map Notifications.Index (tbl_Notifications db)) ->
  NoDup (map AppEvents.Index (tbl_AppEvents db)) ->
  0 <= KN -> 0 <= KA ->
  let db' :=
    after_run E DAYS_TO_KEEP_EVENTS PHOLUS_DAYS_DATA HRS_TO_KEEP_NEWDEV
      PLUGINS_KEEP_HIST db in
  keeps_newest Notifications.DateTimeCreated KN
    (tbl_Notifications db) (tbl_Notifications db')
  /\ keeps_newest AppEvents.DateTimeCreated KA
       (tbl_AppEvents db) (tbl_AppEvents db').
Proof.
  intros Hrun HN HA HndN HndA HKN HKA db'.
  destruct (after_run_completes _ _ _ _ _ _ Hrun) as [kN [kA [HN' [HA' R]]]].
  rewrite HN in HN'. rewrite HA in HA'.
  injection HN' as <-. injection HA' as <-.
  subst db'. rewrite R. cbn [tbl_Notifications tbl_AppEvents cleaned].
  unfold trim_notifications, trim_appevents. split.
  - pose proof (trim_ranked_keeps_newest Notifications.Index
                  (fun _ => Some "Notifications"%string)
                  Notifications.DateTimeCreated KN
                  (Some "Notifications"%string)
                  (tbl_Notifications db) HndN HKN) as H.
    now rewrite !partition_of_constant in H.
  - pose proof (trim_ranked_keeps_newest AppEvents.Index
                  (fun _ => Some "AppEvents"%string)
                  AppEvents.DateTimeCreated KA
                  (Some "AppEvents"%string)
                  (tbl_AppEvents db) HndA HKA) as H.
    now rewrite !partition_of_constant in H.
Qed.

Lemma notifications_and_appevents_capped_globally_witness :
  let E := Scenario.env Scenario.noon_20_jan in
  let db := Scenario.notes_and_events in
  let db' := after_run E 90 Empty 0 3 db in
  completes (run E 90 Empty 0 3 db)
  /\ get_setting_value E "DBCLNP_NOTIFI_HIST" = Int 2
  /\ get_setting_value E "WORKFLOWS_AppEvents_hist" = Int 1
  /\ NoDup (map Notifications.Index (tbl_Notifications db))
  /\ NoDup (map AppEvents.Index (tbl_AppEvents db))
  /\ 0 <= 2 /\ 0 <= 1
  /\ (keeps_newest Notifications.DateTimeCreated 2
        (tbl_Notifications db) (tbl_Notifications db')
      /\ keeps_newest AppEvents.DateTimeCreated 1
           (tbl_AppEvents db) (tbl_AppEvents db'))
  /\ map Notifications.Index (tbl_Notifications db') = [2; 4]
  /\ map AppEvents.Index (tbl_AppEvents db') = [3].
Proof.
  intros E db db'.
  assert (completes (run E 90 Empty 0 3 db)) as Hrun by reflexivity.
  assert (NoDup (map Notifications.Index (tbl_Notifications db))) as HndN.
  { repeat constructor; simpl; intuition discriminate. }
  assert (NoDup (map AppEvents.Index (tbl_AppEvents db))) as HndA.
  { repeat constructor; simpl; intuition discriminate. }
  assert (0 <= 2) as H2 by lia.
  assert (0 <= 1) as H1 by lia.
  split; [exact Hrun|]. split; [reflexivity|]. split; [reflexivity|].
  split; [exact HndN|]. split; [exact HndA|].
  split; [exact H2|]. split; [exact H1|]. split.
  - exact (notifications_and_appevents_capped_globally E 90 Empty 0 3 2 1 db
             Hrun eq_refl eq_refl HndN HndA H2 H1).
  - split; reflexivity.
Defined.

(** C4.  After a run that returns, with "Index" identifying the rows,
    Online_History holds at most 150 rows, the first 150 by descending
    Scan_Date (rows of equal Scan_Date taken in table order), and every row
    kept has a Scan_Date at least that of every row deleted. *)
Theorem online_history_keeps_150_newest
    (E : environment) (DAYS_TO_KEEP_EVENTS : Z) (PHOLUS_DAYS_DATA : setting)
    (HRS_TO_KEEP_NEWDEV PLUGINS_KEEP_HIST : Z) (db : database) :
  completes (run E DAYS_TO_KEEP_EVENTS PHOLUS_DAYS_DATA HRS_TO_KEEP_NEWDEV
               PLUGINS_KEEP_HIST db) ->
  NoDup (map Online_History.Index (tbl_Online_History db)) ->
  keeps_newest Online_History.Scan_Date 150
    (tbl_Online_History db)
    (tbl_Online_History
       (after_run E DAYS_TO_KEEP_EVENTS PHOLUS_DAYS_DATA HRS_TO_KEEP_NEWDEV
          PLUGINS_KEEP_HIST db)).
Proof.
  intros Hrun Hnd.
  destruct (after_run_completes _ _ _ _ _ _ Hrun) as [kN [kA [_ [_ R]]]].
  rewrite R. cbn [tbl_Online_History cleaned].
  now apply delete_online_history_keeps_newest.
Qed.

Lemma online_history_keeps_150_newest_witness :
  let E := Scenario.env Scenario.noon_20_jan in
  let db := Scenario.scans_152 in
  let db' := after_run E 90 Empty 0 3 db in
  completes (run E 90 Empty 0 3 db)
  /\ NoDup (map Online_History.Index (tbl_Online_History db))
  /\ keeps_newest Online_History.Scan_Date 150
       (tbl_Online_History db) (tbl_Online_History db')
  /\ map Online_History.Index (tbl_Online_History db')
     = map Z.of_nat (seq 2 150).
Proof.
  intros E db db'.
  assert (completes (run E 90 Empty 0 3 db)) as Hrun
    by (vm_compute; reflexivity).
  assert (NoDup (map Online_History.Index (tbl_Online_History db))) as Hnd.
  { unfold db, Scenario.scans_152. cbn [tbl_Online_History with_Online_History].
    rewrite map_map. cbn [Online_History.Index Scenario.scan].
    apply Finite.Injective_map_NoDup; [|apply seq_NoDup].
    intros a b. apply Nat2Z.inj. }
  split; [exact Hrun|]. split; [exact Hnd|]. split.
  - exact (online_history_keeps_150_newest E 90 Empty 0 3 db Hrun Hnd).
  - vm_compute. reflexivity.
Defined.

(** *** The claim on duplicates *)

(** C3 (amended).  After a run that returns, no two rows left in Pholus_Scan
    have (MAC, Value, Record_Type) that compare equal unless they have the
    same row id, and no two rows left in Plugins_Objects have (Plugin,
    Object_PrimaryID, Object_SecondaryID, UserData) that compare equal unless
    they have the same row id; keys compare equal when every column is
    non-NULL and equal.  Of every group of rows whose keys compare equal, in
    Plugins_Objects before the run and in Pholus_Scan after the age-out step
    of the run (the table of before the run when that step is off), the row
    of smallest row id is left, for groups of any size. *)
Theorem duplicates_removed_smallest_rowid_kept
    (E : environment) (DAYS_TO_KEEP_EVENTS : Z) (PHOLUS_DAYS_DATA : setting)
    (HRS_TO_KEEP_NEWDEV PLUGINS_KEEP_HIST : Z) (db : database) :
  completes (run E DAYS_TO_KEEP_EVENTS PHOLUS_DAYS_DATA HRS_TO_KEEP_NEWDEV
               PLUGINS_KEEP_HIST db) ->
  let db' :=
    after_run E DAYS_TO_KEEP_EVENTS PHOLUS_DAYS_DATA HRS_TO_KEEP_NEWDEV
      PLUGINS_KEEP_HIST db in
  no_duplicates Pholus_Scan.rowid pholus_same_key (tbl_Pholus_Scan db')
  /\ smallest_kept Pholus_Scan.rowid pholus_same_key
       (age_out_pholus (now E) PHOLUS_DAYS_DATA (tbl_Pholus_Scan db))
       (tbl_Pholus_Scan db')
  /\ (pholus_enabled PHOLUS_DAYS_DATA = None ->
      smallest_kept Pholus_Scan.rowid pholus_same_key
        (tbl_Pholus_Scan db) (tbl_Pholus_Scan db'))
  /\ no_duplicates Plugins_Objects.rowid objects_same_key
       (tbl_Plugins_Objects db')
  /\ smallest_kept Plugins_Objects.rowid objects_same_key
       (tbl_Plugins_Objects db) (tbl_Plugins_Objects db').
Proof.
  intros Hrun db'.
  destruct (after_run_completes _ _ _ _ _ _ Hrun) as [kN [kA [_ [_ R]]]].
  subst db'. rewrite R. cbn [tbl_Pholus_Scan tbl_Plugins_Objects cleaned].
  unfold dedupe_pholus_scan, dedupe_plugins_objects.
  split; [|split; [|split; [|split]]].
  - intros r1 r2.
    apply delete_duplicates_unique. exact pholus_same_key_sym.
  - intros r.
    apply delete_duplicates_keeps_min. exact pholus_same_key_trans.
  - intros Hoff r. unfold age_out_pholus. rewrite Hoff.
    apply delete_duplicates_keeps_min. exact pholus_same_key_trans.
  - intros r1 r2.
    apply delete_duplicates_unique. exact objects_same_key_sym.
  - intros r.
    apply delete_duplicates_keeps_min. exact objects_same_key_trans.
Qed.

Lemma duplicates_removed_smallest_rowid_kept_witness :
  let E := Scenario.env Scenario.noon_20_jan in
  let db := Scenario.three_scans in
  let db' := after_run E 90 Empty 0 3 db in
  completes (run E 90 Empty 0 3 db)
  /\ (no_duplicates Pholus_Scan.rowid pholus_same_key (tbl_Pholus_Scan db')
      /\ smallest_kept Pholus_Scan.rowid pholus_same_key
           (age_out_pholus (now E) Empty (tbl_Pholus_Scan db))
           (tbl_Pholus_Scan db')
      /\ (pholus_enabled Empty = None ->
          smallest_kept Pholus_Scan.rowid pholus_same_key
            (tbl_Pholus_Scan db) (tbl_Pholus_Scan db'))
      /\ no_duplicates Plugins_Objects.rowid objects_same_key
           (tbl_Plugins_Objects db')
      /\ smallest_kept Plugins_Objects.rowid objects_same_key
           (tbl_Plugins_Objects db) (tbl_Plugins_Objects db'))
  /\ map Pholus_Scan.rowid (tbl_Pholus_Scan db') = [5].
Proof.
  intros E db db'.
  assert (completes (run E 90 Empty 0 3 db)) as Hrun by reflexivity.
  split; [exact Hrun|]. split.
  - exact (duplicates_removed_smallest_rowid_kept E 90 Empty 0 3 db Hrun).
  - reflexivity.
Defined.

(** With the age-out on, the scan of smallest row id goes when it is old,
    and row id 7 is what the run leaves of the group 5, 7, 9; and two scans
    whose MAC is NULL, equal in Value and Record_Type, are both left. *)
Lemma smallest_rowid_lost_to_age_out :
  let E := Scenario.env Scenario.noon_20_jan in
  (let db := Scenario.three_scans_first_old in
   let db' := after_run E 90 (Int 5) 0 3 db in
   completes (run E 90 (Int 5) 0 3 db)
   /\ map Pholus_Scan.rowid (tbl_Pholus_Scan db') = [7]
   /\ ~ smallest_kept Pholus_Scan.rowid pholus_same_key
          (tbl_Pholus_Scan db) (tbl_Pholus_Scan db'))
  /\ (let db := Scenario.two_scans_without_mac in
      let db' := after_run E 90 Empty 0 3 db in
      completes (run E 90 Empty 0 3 db)
      /\ exists r1 r2,
           In r1 (tbl_Pholus_Scan db') /\ In r2 (tbl_Pholus_Scan db')
           /\ Pholus_Scan.rowid r1 <> Pholus_Scan.rowid r2
           /\ Pholus_Scan.MAC r1 = Pholus_Scan.MAC r2
           /\ Pholus_Scan.Value r1 = Pholus_Scan.Value r2
           /\ Pholus_Scan.Record_Type r1 = Pholus_Scan.Record_Type r2).
Proof.
  intros E. split.
  - intros db db'. split; [reflexivity|]. split; [reflexivity|].
    intros H.
    destruct (H (Scenario.pholus 5 "2024-01-01 08:00:00" (Some "AA:BB"%string)))
      as [m [Hm [_ Hmin]]].
    + left. reflexivity.
    + reflexivity.
    + vm_compute in Hm. destruct Hm as [<- | []].
      specialize (Hmin (Scenario.pholus 5 "2024-01-01 08:00:00"
                          (Some "AA:BB"%string))).
      cbn in Hmin. assert (7 <= 5) by (apply Hmin; [now left | reflexivity]).
      lia.
  - intros db db'. split; [reflexivity|].
    exists (Scenario.pholus 1 "2024-01-19 08:00:00" None),
           (Scenario.pholus 2 "2024-01-19 09:00:00" None).
    vm_compute. repeat split; auto. discriminate.
Qed.

(** *** The cutoffs of the time-based steps *)

Lemma text_le_holds (a b : value) :
  holds (text_le a b) = true
  <-> exists s c, a = Some s /\ b = Some c /\ String.leb s c = true.
Proof.
  destruct a as [x|], b as [y|]; simpl; split;
    try discriminate; try (intros [s [c [? [? ?]]]]; discriminate).
  - destruct (String.leb x y) eqn:E; [eauto | discriminate].
  - intros [s [c [E1 [E2 H]]]]. injection E1 as ->. injection E2 as ->.
    now rewrite H.
Qed.

Lemma text_lt_holds (a b : value) :
  holds (text_lt a b) = true
  <-> exists s c, a = Some s /\ b = Some c /\ String.ltb s c = true.
Proof.
  destruct a as [x|], b as [y|]; simpl; split;
    try discriminate; try (intros [s [c [? [? ?]]]]; discriminate).
  - destruct (String.ltb x y) eqn:E; [eauto | discriminate].
  - intros [s [c [E1 [E2 H]]]]. injection E1 as ->. injection E2 as ->.
    now rewrite H.
Qed.

(** The text of a date has ten characters, eleven before year 0: there is no
    room in it for a time of day. *)
Lemma format_date_length (ymd : Z * Z * Z) :
  String.length (format_date ymd) = 10%nat
  \/ String.length (format_date ymd) = 11%nat.
Proof.
  destruct ymd as [[y m] d]. unfold format_date.
  destruct (y <? 0); [right | left]; reflexivity.
Qed.

(** Within the range of dates the Julian day is the day number, counted from
    another day. *)
Lemma julian_day_number (t : Z) :
  in_date_range t = true ->
  Z.quot (julian_ms t + 43200000) 86400000 = day_number t + 2440588.
Proof.
  unfold in_date_range, julian_ms, day_number. intros H.
  apply andb_prop in H as [H _]. apply Z.leb_le in H.
  rewrite Z.quot_div_nonneg by lia.
  replace (t + 210866760000000 + 43200000) with (t + 2440588 * 86400000)
    by lia.
  now rewrite Z.div_add by lia.
Qed.

(** The date is read off the day number alone. *)
Lemma computeYMD_day_number (t1 t2 : Z) :
  day_number t1 = day_number t2 ->
  in_date_range t1 = true -> in_date_range t2 = true ->
  computeYMD (julian_ms t1) = computeYMD (julian_ms t2).
Proof.
  intros H R1 R2. unfold computeYMD.
  now rewrite (julian_day_number t1 R1), (julian_day_number t2 R2), H.
Qed.

Lemma date_of_text (t : Z) (c : string) :
  date_of t = Some c
  <-> in_date_range t = true /\ c = format_date (computeYMD (julian_ms t)).
Proof.
  unfold date_of. destruct (in_date_range t); split.
  - intros H. split; [reflexivity | congruence].
  - intros [_ ->]. reflexivity.
  - discriminate.
  - intros [H _]. discriminate.
Qed.

Lemma date_now_minus_spec (clock n : Z) (u : time_unit) :
  (0 <= n -> n < rLimit u -> 0 < julian_ms clock ->
   date_now_minus clock n u = date_of (clock - n * ms_per u))
  /\ (n < 0 -> date_now_minus clock n u = None).
Proof.
  unfold date_now_minus, minus_modifier. split.
  - intros H0 Hl Hc.
    destruct (Z.ltb_spec 0 (julian_ms clock)); [|lia].
    destruct (Z.ltb_spec n 0); [lia|].
    destruct (Z.leb_spec (rLimit u) n); [lia|].
    cbn [orb]. f_equal; lia.
  - intros H. destruct (0 <? julian_ms clock); [|reflexivity].
    destruct (Z.ltb_spec n 0); [reflexivity | lia].
Qed.

(** When [date('now', '-{n} unit')] is a date, and which. *)
Lemma date_now_minus_text (clock n : Z) (u : time_unit) (c : string) :
  date_now_minus clock n u = Some c
  <-> 0 < julian_ms clock /\ 0 <= n < rLimit u
      /\ in_date_range (clock - n * ms_per u) = true
      /\ c = format_date (computeYMD (julian_ms (clock - n * ms_per u))).
Proof.
  split.
  - intros H. unfold date_now_minus, minus_modifier in H.
    destruct (Z.ltb_spec 0 (julian_ms clock)); [|discriminate].
    destruct (Z.ltb_spec n 0); [discriminate|].
    destruct (Z.leb_spec (rLimit u) n); [discriminate|].
    cbn [orb] in H.
    replace (clock + - (n * ms_per u)) with (clock - n * ms_per u) in H
      by lia.
    apply date_of_text in H. intuition lia.
  - intros [Hc [[H0 Hl] [Hr ->]]].
    rewrite (proj1 (date_now_minus_spec clock n u) H0 Hl Hc).
    apply date_of_text. auto.
Qed.

Lemma date_now_minus_day_number (clock1 clock2 n1 n2 : Z) (u : time_unit) :
  day_number (clock1 - n1 * ms_per u) = day_number (clock2 - n2 * ms_per u) ->
  date_now_minus clock1 n1 u <> None ->
  date_now_minus clock2 n2 u <> None ->
  date_now_minus clock1 n1 u = date_now_minus clock2 n2 u.
Proof.
  intros H N1 N2.
  destruct (date_now_minus clock1 n1 u) as [c1|] eqn:E1; [|congruence].
  destruct (date_now_minus clock2 n2 u) as [c2|] eqn:E2; [|congruence].
  apply date_now_minus_text in E1 as [_ [_ [R1 ->]]].
  apply date_now_minus_text in E2 as [_ [_ [R2 ->]]].
  do 2 f_equal. now apply computeYMD_day_number.
Qed.

(** From a clock of the years 1970 .. 9999 a shift back of up to
    210866760000000 ms, some 6682 years, gives a date. *)
Lemma date_now_minus_usual (clock n : Z) (u : time_unit) :
  0 <= clock <= 253402300799999 ->
  0 <= n -> n * ms_per u <= 210866760000000 ->
  date_now_minus clock n u <> None.
Proof.
  intros Hc H0 Hn.
  assert (n < rLimit u) as Hl by (destruct u; cbn [rLimit ms_per] in *; lia).
  rewrite (proj1 (date_now_minus_spec clock n u) H0 Hl)
    by (unfold julian_ms; lia).
  unfold date_of.
  assert (in_date_range (clock - n * ms_per u) = true) as ->; [|discriminate].
  unfold in_date_range, julian_ms.
  apply andb_true_intro.
  split; apply Z.leb_le; destruct u; cbn [ms_per] in *; lia.
Qed.

(** C5 (amended).  After a run that returns, with daysToKeepEvents = N, the
    Events rows deleted are exactly those whose eve_DateTime is, as text, at
    or before the cutoff date('now', '-N day').  Every row left with a
    timestamp is, as text, after the cutoff.  The cutoff is the calendar
    date of now minus N days, YYYY-MM-DD (with a minus sign in front for a
    year before 0), ten or eleven characters with no time of day; it is NULL,
    which deletes nothing, when N is negative and whenever SQLite has no
    date for that instant. *)
Theorem events_deleted_up_to_cutoff_date
    (E : environment) (N : Z) (PHOLUS_DAYS_DATA : setting)
    (HRS_TO_KEEP_NEWDEV PLUGINS_KEEP_HIST : Z) (db : database) :
  completes (run E N PHOLUS_DAYS_DATA HRS_TO_KEEP_NEWDEV PLUGINS_KEEP_HIST db) ->
  let db' :=
    after_run E N PHOLUS_DAYS_DATA HRS_TO_KEEP_NEWDEV PLUGINS_KEEP_HIST db in
  let cutoff := date_now_minus (now E) N Day in
  (forall r,
     In r (tbl_Events db')
     <-> In r (tbl_Events db)
         /\ ~ exists s c,
               Events.eve_DateTime r = Some s /\ cutoff = Some c
               /\ String.leb s c = true)
  /\ (forall r s c,
        In r (tbl_Events db') -> Events.eve_DateTime r = Some s ->
        cutoff = Some c -> String.ltb c s = true)
  /\ (forall c,
        cutoff = Some c
        <-> 0 < julian_ms (now E) /\ 0 <= N < rLimit Day
            /\ in_date_range (now E - N * 86400000) = true
            /\ c = format_date
                     (computeYMD (julian_ms (now E - N * 86400000))))
  /\ (forall c,
        cutoff = Some c ->
        String.length c = 10%nat \/ String.length c = 11%nat)
  /\ (cutoff = None -> tbl_Events db' = tbl_Events db)
  /\ (N < 0 -> cutoff = None).
Proof.
  intros Hrun db' cutoff.
  destruct (after_run_completes _ _ _ _ _ _ Hrun) as [kN [kA [_ [_ R]]]].
  subst db'. rewrite R. cbn [tbl_Events cleaned]. unfold delete_events.
  fold cutoff.
  assert (forall r,
            In r (delete_where
                    (fun r => text_le (Events.eve_DateTime r) cutoff)
                    (tbl_Events db))
            <-> In r (tbl_Events db)
                /\ ~ exists s c,
                      Events.eve_DateTime r = Some s /\ cutoff = Some c
                      /\ String.leb s c = true) as Hin.
  { intros r. rewrite delete_where_In, <- text_le_holds.
    destruct (text_le (Events.eve_DateTime r) cutoff) as [[|]|]; simpl;
      intuition congruence. }
  split; [exact Hin|]. split; [|split; [|split; [|split]]].
  - intros r s c Hr Hs Hc. apply Hin in Hr as [_ Hnot].
    rewrite string_ltb_leb. destruct (String.leb s c) eqn:Hle; [|reflexivity].
    exfalso. apply Hnot. now exists s, c.
  - intros c. apply (date_now_minus_text (now E) N Day c).
  - intros c Hc. apply (date_now_minus_text (now E) N Day c) in Hc.
    destruct Hc as [_ [_ [_ ->]]]. apply format_date_length.
  - intros Hnone. rewrite Hnone. unfold delete_where. apply filter_all.
    intros r _. now destruct (Events.eve_DateTime r).
  - apply date_now_minus_spec.
Qed.

Lemma events_deleted_up_to_cutoff_date_witness :
  let E := Scenario.env Scenario.noon_20_jan in
  let db := Scenario.events_around_cutoff in
  let db' := after_run E 10 Empty 0 3 db in
  let cutoff := date_now_minus (now E) 10 Day in
  completes (run E 10 Empty 0 3 db)
  /\ ((forall r,
         In r (tbl_Events db')
         <-> In r (tbl_Events db)
             /\ ~ exists s c,
                   Events.eve_DateTime r = Some s /\ cutoff = Some c
                   /\ String.leb s c = true)
      /\ (forall r s c,
            In r (tbl_Events db') -> Events.eve_DateTime r = Some s ->
            cutoff = Some c -> String.ltb c s = true)
      /\ (forall c,
            cutoff = Some c
            <-> 0 < julian_ms (now E) /\ 0 <= 10 < rLimit Day
                /\ in_date_range (now E - 10 * 86400000) = true
                /\ c = format_date
                         (computeYMD (julian_ms (now E - 10 * 86400000))))
      /\ (forall c,
            cutoff = Some c ->
            String.length c = 10%nat \/ String.length c = 11%nat)
      /\ (cutoff = None -> tbl_Events db' = tbl_Events db)
      /\ (10 < 0 -> cutoff = None))
  /\ cutoff = Some "2024-01-10"%string
  /\ date_now_minus (now E) 800000 Day = Some "-0167-09-23"%string
  /\ map Events.eve_DateTime (tbl_Events db')
     = [Some "2024-01-10 08:00:00"; None; Some "2024-01-10 12:00:01"]%string.
Proof.
  intros E db db' cutoff.
  assert (completes (run E 10 Empty 0 3 db)) as Hrun by reflexivity.
  split; [exact Hrun|]. split.
  - exact (events_deleted_up_to_cutoff_date E 10 Empty 0 3 db Hrun).
  - repeat split; reflexivity.
Defined.

(** At noon of 2024-01-20, with N = 10, the event of 2024-01-10 08:00:00 is
    left although it is older than now minus 10 days, 2024-01-10 12:00:00. *)
Lemma event_older_than_now_minus_N_days_kept :
  let E := Scenario.env Scenario.noon_20_jan in
  let db := Scenario.events_around_cutoff in
  let db' := after_run E 10 Empty 0 3 db in
  completes (run E 10 Empty 0 3 db)
  /\ datetime_of (now E - 10 * 86400000) = Some "2024-01-10 12:00:00"%string
  /\ exists r,
       In r (tbl_Events db')
       /\ holds (text_lt (Events.eve_DateTime r)
                         (datetime_of (now E - 10 * 86400000))) = true.
Proof.
  intros E db db'. split; [reflexivity|]. split; [reflexivity|].
  exists (Scenario.event (Some "2024-01-10 08:00:00"%string)).
  split; [vm_compute; auto | reflexivity].
Qed.

(** C6, the failing input.  At noon of 2024-01-20, with
    hoursToKeepNewDevices = 1, the cutoff is the text 2024-01-20, and the new
    device first seen at 01:00:00 that day is left although it is older than
    now minus 1 hour, 2024-01-20 11:00:00. *)
Theorem new_device_older_than_H_hours_kept :
  let E := Scenario.env Scenario.noon_20_jan in
  let db := Scenario.devices_of_today in
  let db' := after_run E 90 Empty 1 3 db in
  completes (run E 90 Empty 1 3 db)
  /\ date_now_minus (now E) 1 Hour = Some "2024-01-20"%string
  /\ datetime_of (now E - 1 * 3600000) = Some "2024-01-20 11:00:00"%string
  /\ exists r,
       In r (tbl_Devices db')
       /\ Devices.dev_NewDevice r = Some 1
       /\ Devices.dev_FirstConnection r = Some "2024-01-20 01:00:00"%string
       /\ holds (text_lt (Devices.dev_FirstConnection r)
                         (datetime_of (now E - 1 * 3600000))) = true.
Proof.
  intros E db db'. split; [reflexivity|]. split; [reflexivity|].
  split; [reflexivity|].
  exists (Scenario.device (Some 1) "2024-01-20 01:00:00").
  split; [vm_compute; auto | repeat split].
Qed.

(** X1.  With hoursToKeepNewDevices = 0 no run deletes a row of Devices. *)
Lemma new_devices_untouched_when_zero
    (E : environment) (DAYS_TO_KEEP_EVENTS : Z) (PHOLUS_DAYS_DATA : setting)
    (PLUGINS_KEEP_HIST : Z) (db : database) :
  tbl_Devices
    (after_run E DAYS_TO_KEEP_EVENTS PHOLUS_DAYS_DATA 0 PLUGINS_KEEP_HIST db)
  = tbl_Devices db.
Proof.
  destruct (after_run_cases E DAYS_TO_KEEP_EVENTS PHOLUS_DAYS_DATA 0
              PLUGINS_KEEP_HIST db) as [-> | [kN [kA [_ [_ ->]]]]];
    reflexivity.
Qed.

(** C10 (amended).  The cutoff of each time-based step is
    date('now', modifier): when not NULL it is the date of the shifted
    instant, ten or eleven characters with no time of day, and two clock
    readings or two offsets that fall on the same day and both have a date
    give the same cutoff.  For the new-device step, two positive values of
    hoursToKeepNewDevices whose offsets from now fall on the same day, and
    for which date() is not NULL, delete the same rows of any table; from a
    clock of the years 1970 .. 9999 date() is not NULL for any value up to
    58574100 hours, and it is NULL for an offset before noon of -4713-11-24,
    where the dates of SQLite begin.  At noon of 2024-01-20 the two values
    1 and 11 give the same cutoff, while 13 hours reach the day before. *)
Theorem cutoffs_have_day_granularity :
  (forall clock n u c,
     date_now_minus clock n u = Some c ->
     c = format_date (computeYMD (julian_ms (clock - n * ms_per u)))
     /\ (String.length c = 10%nat \/ String.length c = 11%nat))
  /\ (forall clock N t,
        delete_events clock N t
        = delete_where
            (fun r => text_le (Events.eve_DateTime r)
                              (date_now_minus clock N Day)) t)
  /\ (forall clock D t,
        delete_pholus_scan clock D t
        = delete_where
            (fun r => text_le (Pholus_Scan.Time r)
                              (date_now_minus clock D Day)) t)
  /\ (forall clock H t,
        delete_new_devices clock H t
        = delete_where
            (fun r => sql_and (int_eq (Devices.dev_NewDevice r) (Some 1))
                              (text_lt (Devices.dev_FirstConnection r)
                                       (date_now_minus clock H Hour))) t)
  /\ (forall clock1 clock2 n1 n2 u,
        day_number (clock1 - n1 * ms_per u)
        = day_number (clock2 - n2 * ms_per u) ->
        date_now_minus clock1 n1 u <> None ->
        date_now_minus clock2 n2 u <> None ->
        date_now_minus clock1 n1 u = date_now_minus clock2 n2 u)
  /\ (forall clock H1 H2 t,
        0 < H1 -> 0 < H2 ->
        day_number (clock - H1 * 3600000) = day_number (clock - H2 * 3600000) ->
        date_now_minus clock H1 Hour <> None ->
        date_now_minus clock H2 Hour <> None ->
        delete_new_devices clock H1 t = delete_new_devices clock H2 t)
  /\ (forall clock H,
        0 <= clock <= 253402300799999 -> 0 < H <= 58574100 ->
        date_now_minus clock H Hour <> None)
  /\ (forall clock n u,
        julian_ms (clock - n * ms_per u) < 0 ->
        date_now_minus clock n u = None)
  /\ (date_now_minus Scenario.noon_20_jan 1 Hour
      = date_now_minus Scenario.noon_20_jan 11 Hour
      /\ date_now_minus Scenario.noon_20_jan 1 Hour = Some "2024-01-20"%string
      /\ date_now_minus Scenario.noon_20_jan 13 Hour
         = Some "2024-01-19"%string).
Proof.
  split; [|split; [|split; [|split; [|split; [|split; [|split; [|split]]]]]]].
  - intros clock n u c Hc.
    apply date_now_minus_text in Hc as [_ [_ [_ ->]]].
    split; [reflexivity | apply format_date_length].
  - reflexivity.
  - reflexivity.
  - reflexivity.
  - intros clock1 clock2 n1 n2 u. apply date_now_minus_day_number.
  - intros clock H1 H2 t _ _ H N1 N2. unfold delete_new_devices.
    apply delete_where_ext. intros r.
    now rewrite (date_now_minus_day_number clock clock H1 H2 Hour H N1 N2).
  - intros clock H Hc HH. apply date_now_minus_usual; cbn [ms_per]; lia.
  - intros clock n u Hneg.
    destruct (date_now_minus clock n u) as [c|] eqn:Hc; [|reflexivity].
    apply date_now_minus_text in Hc as [_ [_ [Hr _]]].
    unfold in_date_range in Hr. apply andb_prop in Hr as [Hr _].
    apply Z.leb_le in Hr. lia.
  - repeat split.
Qed.

(** At noon of 2024-01-20 the offsets of 59047920 and of 59047924 hours fall
    on the same day, 24 November 4714 BC, the first at noon and the second at
    08:00.  SQLite's dates begin at noon of that day: the first cutoff is the
    text -4713-11-24, the second is NULL, and a new device whose first
    connection is the empty text is deleted by a run with the first value and
    left by a run with the second. *)
Lemma hours_on_the_first_day_of_the_calendar_differ :
  let E := Scenario.env Scenario.noon_20_jan in
  let db := Scenario.devices_without_date in
  0 < 59047920 /\ 0 < 59047924
  /\ day_number (now E - 59047920 * 3600000)
     = day_number (now E - 59047924 * 3600000)
  /\ date_now_minus (now E) 59047920 Hour = Some "-4713-11-24"%string
  /\ date_now_minus (now E) 59047924 Hour = None
  /\ delete_new_devices (now E) 59047920 (tbl_Devices db)
     <> delete_new_devices (now E) 59047924 (tbl_Devices db)
  /\ completes (run E 90 Empty 59047920 3 db)
  /\ completes (run E 90 Empty 59047924 3 db)
  /\ tbl_Devices (after_run E 90 Empty 59047920 3 db) = []
  /\ tbl_Devices (after_run E 90 Empty 59047924 3 db) = tbl_Devices db
  /\ tbl_Devices db <> [].
Proof.
  intros E db. repeat split; try reflexivity; discriminate.
Qed.

(** *** A second run *)

Lemma delete_where_absorb {row : Type} (cond : row -> condition)
    (t l : list row) :
  (forall r, In r l -> In r (delete_where cond t)) ->
  delete_where cond l = l.
Proof.
  intros H. unfold delete_where. apply filter_all. intros r Hr.
  specialize (H r Hr). unfold delete_where in H. now apply filter_In in H.
Qed.

Lemma delete_duplicates_incl {row : Type} (rowid : row -> Z)
    (same_key : row -> row -> condition) (t : list row) (r : row) :
  In r (delete_duplicates rowid same_key t) -> In r t.
Proof.
  unfold delete_duplicates, delete_where. intros H.
  now apply filter_In in H.
Qed.

Lemma expire_new_devices_idem (clock1 clock2 h : Z) (t : list Devices.row) :
  date_now_minus clock2 h Hour = date_now_minus clock1 h Hour ->
  expire_new_devices clock2 h (expire_new_devices clock1 h t)
  = expire_new_devices clock1 h t.
Proof.
  intros H. unfold expire_new_devices.
  destruct (h =? 0); [reflexivity|].
  unfold delete_new_devices. rewrite H. apply delete_where_idem.
Qed.

Lemma pholus_scan_idem (clock1 clock2 : Z) (p : setting)
    (t : list Pholus_Scan.row) :
  (forall pd, pholus_enabled p = Some pd ->
              date_now_minus clock2 pd Day = date_now_minus clock1 pd Day) ->
  dedupe_pholus_scan
    (age_out_pholus clock2 p (dedupe_pholus_scan (age_out_pholus clock1 p t)))
  = dedupe_pholus_scan (age_out_pholus clock1 p t).
Proof.
  intros H. unfold age_out_pholus, dedupe_pholus_scan.
  destruct (pholus_enabled p) as [pd|].
  - unfold delete_pholus_scan. rewrite (H pd eq_refl).
    rewrite (delete_where_absorb
               (fun r => text_le (Pholus_Scan.Time r)
                                 (date_now_minus clock1 pd Day)) t).
    + apply delete_duplicates_idem.
    + intros r. apply delete_duplicates_incl.
  - apply delete_duplicates_idem.
Qed.

(** The rows a committed run leaves are left as they are by a run that
    computes the same cutoffs. *)
Lemma cleaned_idem (clock1 clock2 d : Z) (p : setting) (h k kN kA : Z)
    (db : database) :
  NoDup (map Online_History.Index (tbl_Online_History db)) ->
  NoDup (map Plugins_History.Index (tbl_Plugins_History db)) ->
  NoDup (map Notifications.Index (tbl_Notifications db)) ->
  NoDup (map AppEvents.Index (tbl_AppEvents db)) ->
  date_now_minus clock2 d Day = date_now_minus clock1 d Day ->
  date_now_minus clock2 h Hour = date_now_minus clock1 h Hour ->
  (forall pd, pholus_enabled p = Some pd ->
              date_now_minus clock2 pd Day = date_now_minus clock1 pd Day) ->
  cleaned clock2 d p h k kN kA (cleaned clock1 d p h k kN kA db)
  = cleaned clock1 d p h k kN kA db.
Proof.
  intros Hoh Hph Hn Ha Hd Hh Hp. unfold cleaned.
  cbn [tbl_Online_History tbl_Events tbl_Plugins_History tbl_Notifications
       tbl_AppEvents tbl_Devices tbl_Pholus_Scan tbl_Plugins_Objects
       other_tables].
  f_equal.
  - now apply delete_online_history_idem.
  - unfold delete_events. rewrite Hd. apply delete_where_idem.
  - now apply trim_ranked_idem.
  - now apply trim_ranked_idem.
  - now apply trim_ranked_idem.
  - now apply expire_new_devices_idem.
  - now apply pholus_scan_idem.
  - apply delete_duplicates_idem.
Qed.

(** C7 (amended).  After a run that returns, with "Index" identifying the
    rows of the four history tables, a second run with the same parameters
    and the same history counts, and no write in between, deletes nothing,
    provided the database clock gives the second run the same cutoff dates
    as the first: the database the first run left is then what the second
    run leaves. *)
Theorem second_run_deletes_nothing_on_same_cutoffs
    (E1 E2 : environment) (DAYS_TO_KEEP_EVENTS : Z)
    (PHOLUS_DAYS_DATA : setting) (HRS_TO_KEEP_NEWDEV PLUGINS_KEEP_HIST : Z)
    (db : database) :
  completes (run E1 DAYS_TO_KEEP_EVENTS PHOLUS_DAYS_DATA HRS_TO_KEEP_NEWDEV
               PLUGINS_KEEP_HIST db) ->
  get_setting_value E2 "DBCLNP_NOTIFI_HIST"
  = get_setting_value E1 "DBCLNP_NOTIFI_HIST" ->
  get_setting_value E2 "WORKFLOWS_AppEvents_hist"
  = get_setting_value E1 "WORKFLOWS_AppEvents_hist" ->
  NoDup (map Online_History.Index (tbl_Online_History db)) ->
  NoDup (map Plugins_History.Index (tbl_Plugins_History db)) ->
  NoDup (map Notifications.Index (tbl_Notifications db)) ->
  NoDup (map AppEvents.Index (tbl_AppEvents db)) ->
  date_now_minus (now E2) DAYS_TO_KEEP_EVENTS Day
  = date_now_minus (now E1) DAYS_TO_KEEP_EVENTS Day ->
  date_now_minus (now E2) HRS_TO_KEEP_NEWDEV Hour
  = date_now_minus (now E1) HRS_TO_KEEP_NEWDEV Hour ->
  (forall pd,
     pholus_enabled PHOLUS_DAYS_DATA = Some pd ->
     date_now_minus (now E2) pd Day = date_now_minus (now E1) pd Day) ->
  after_run E2 DAYS_TO_KEEP_EVENTS PHOLUS_DAYS_DATA HRS_TO_KEEP_NEWDEV
    PLUGINS_KEEP_HIST
    (after_run E1 DAYS_TO_KEEP_EVENTS PHOLUS_DAYS_DATA HRS_TO_KEEP_NEWDEV
       PLUGINS_KEEP_HIST db)
  = after_run E1 DAYS_TO_KEEP_EVENTS PHOLUS_DAYS_DATA HRS_TO_KEEP_NEWDEV
      PLUGINS_KEEP_HIST db.
Proof.
  intros Hrun HN HA Hoh Hph Hn Ha Hd Hh Hp.
  destruct (after_run_completes _ _ _ _ _ _ Hrun) as [kN [kA [HN1 [HA1 R]]]].
  rewrite R.
  destruct (after_run_cases E2 DAYS_TO_KEEP_EVENTS PHOLUS_DAYS_DATA
              HRS_TO_KEEP_NEWDEV PLUGINS_KEEP_HIST
              (cleaned (now E1) DAYS_TO_KEEP_EVENTS PHOLUS_DAYS_DATA
                 HRS_TO_KEEP_NEWDEV PLUGINS_KEEP_HIST kN kA db))
    as [-> | [kN2 [kA2 [HN2 [HA2 ->]]]]]; [reflexivity|].
  assert (kN2 = kN) as -> by congruence.
  assert (kA2 = kA) as -> by congruence.
  now apply cleaned_idem.
Qed.

Lemma second_run_deletes_nothing_on_same_cutoffs_witness :
  let E1 := Scenario.env Scenario.noon_20_jan in
  let E2 := Scenario.env (Scenario.noon_20_jan + 5000) in
  let db := Scenario.busy in
  completes (run E1 10 (Int 5) 1 3 db)
  /\ get_setting_value E2 "DBCLNP_NOTIFI_HIST"
     = get_setting_value E1 "DBCLNP_NOTIFI_HIST"
  /\ get_setting_value E2 "WORKFLOWS_AppEvents_hist"
     = get_setting_value E1 "WORKFLOWS_AppEvents_hist"
  /\ NoDup (map Online_History.Index (tbl_Online_History db))
  /\ NoDup (map Plugins_History.Index (tbl_Plugins_History db))
  /\ NoDup (map Notifications.Index (tbl_Notifications db))
  /\ NoDup (map AppEvents.Index (tbl_AppEvents db))
  /\ date_now_minus (now E2) 10 Day = date_now_minus (now E1) 10 Day
  /\ date_now_minus (now E2) 1 Hour = date_now_minus (now E1) 1 Hour
  /\ (forall pd,
        pholus_enabled (Int 5) = Some pd ->
        date_now_minus (now E2) pd Day = date_now_minus (now E1) pd Day)
  /\ after_run E2 10 (Int 5) 1 3 (after_run E1 10 (Int 5) 1 3 db)
     = after_run E1 10 (Int 5) 1 3 db.
Proof.
  intros E1 E2 db.
  assert (completes (run E1 10 (Int 5) 1 3 db)) as Hrun by reflexivity.
  assert (NoDup (map Online_History.Index (tbl_Online_History db))) as Hoh
    by constructor.
  assert (NoDup (map Plugins_History.Index (tbl_Plugins_History db))) as Hph.
  { repeat constructor; simpl; intuition discriminate. }
  assert (NoDup (map Notifications.Index (tbl_Notifications db))) as Hn
    by constructor.
  assert (NoDup (map AppEvents.Index (tbl_AppEvents db))) as Ha
    by constructor.
  assert (forall pd,
            pholus_enabled (Int 5) = Some pd ->
            date_now_minus (now E2) pd Day = date_now_minus (now E1) pd Day)
    as Hp.
  { intros pd H. injection H as <-. reflexivity. }
  repeat (split; [first [assumption | reflexivity]|]).
  exact (second_run_deletes_nothing_on_same_cutoffs E1 E2 10 (Int 5) 1 3 db
           Hrun eq_refl eq_refl Hoh Hph Hn Ha eq_refl eq_refl Hp).
Defined.

(** A first run at 23:59:59 of 2024-01-20 and a second at 00:00:01 of the
    next day, with N = 10 and nothing written in between: the second run
    deletes the two events of 2024-01-10 that the first one left. *)
Lemma second_run_after_midnight_deletes :
  let E1 := Scenario.env Scenario.before_midnight in
  let E2 := Scenario.env Scenario.after_midnight in
  let db := Scenario.events_around_cutoff in
  let db1 := after_run E1 10 Empty 0 3 db in
  let db2 := after_run E2 10 Empty 0 3 db1 in
  completes (run E1 10 Empty 0 3 db)
  /\ completes (run E2 10 Empty 0 3 db1)
  /\ (forall name, get_setting_value E2 name = get_setting_value E1 name)
  /\ map Events.eve_DateTime (tbl_Events db1)
     = [Some "2024-01-10 08:00:00"; None; Some "2024-01-10 12:00:01"]%string
  /\ map Events.eve_DateTime (tbl_Events db2) = [None]
  /\ db2 <> db1.
Proof.
  intros E1 E2 db db1 db2.
  split; [reflexivity|]. split; [reflexivity|]. split; [reflexivity|].
  split; [reflexivity|]. split; [reflexivity|].
  intros H. apply (f_equal (fun d => List.length (tbl_Events d))) in H.
  vm_compute in H. discriminate.
Qed.

(** *** Nothing but deletions *)

Lemma only_deletes_refl {row : Type} (t : list row) : only_deletes t t.
Proof.
  exists (fun _ => true). symmetry. now apply filter_all.
Qed.

Lemma only_deletes_filter {row : Type} (f : row -> bool) (t : list row) :
  only_deletes t (filter f t).
Proof. now exists f. Qed.

Lemma only_deletes_trans {row : Type} (a b c : list row) :
  only_deletes a b -> only_deletes b c -> only_deletes a c.
Proof.
  intros [f ->] [g ->]. exists (fun r => f r && g r).
  induction a as [|x a IH]; simpl; [reflexivity|].
  destruct (f x); simpl; [destruct (g x); simpl; now rewrite IH | exact IH].
Qed.

(** C8.  Whatever the run (returning or not), the database file it leaves
    has every table other than the eight unchanged, and each of Online_History,
    Events, Plugins_History, Notifications, AppEvents, Devices, Pholus_Scan
    and Plugins_Objects is the table of before with some rows deleted: no row
    is added and none is changed. *)
Theorem run_only_deletes_rows_of_eight_tables
    (E : environment) (DAYS_TO_KEEP_EVENTS : Z) (PHOLUS_DAYS_DATA : setting)
    (HRS_TO_KEEP_NEWDEV PLUGINS_KEEP_HIST : Z) (db : database) :
  let db' :=
    after_run E DAYS_TO_KEEP_EVENTS PHOLUS_DAYS_DATA HRS_TO_KEEP_NEWDEV
      PLUGINS_KEEP_HIST db in
  other_tables db' = other_tables db
  /\ only_deletes (tbl_Online_History db) (tbl_Online_History db')
  /\ only_deletes (tbl_Events db) (tbl_Events db')
  /\ only_deletes (tbl_Plugins_History db) (tbl_Plugins_History db')
  /\ only_deletes (tbl_Notifications db) (tbl_Notifications db')
  /\ only_deletes (tbl_AppEvents db) (tbl_AppEvents db')
  /\ only_deletes (tbl_Devices db) (tbl_Devices db')
  /\ only_deletes (tbl_Pholus_Scan db) (tbl_Pholus_Scan db')
  /\ only_deletes (tbl_Plugins_Objects db) (tbl_Plugins_Objects db').
Proof.
  intros db'. subst db'.
  destruct (after_run_cases E DAYS_TO_KEEP_EVENTS PHOLUS_DAYS_DATA
              HRS_TO_KEEP_NEWDEV PLUGINS_KEEP_HIST db)
    as [-> | [kN [kA [_ [_ ->]]]]].
  - repeat split; apply only_deletes_refl.
  - cbn [cleaned other_tables tbl_Online_History tbl_Events
         tbl_Plugins_History tbl_Notifications tbl_AppEvents tbl_Devices
         tbl_Pholus_Scan tbl_Plugins_Objects].
    split; [reflexivity|].
    split; [apply only_deletes_filter|].
    split; [apply only_deletes_filter|].
    split; [apply only_deletes_filter|].
    split; [apply only_deletes_filter|].
    split; [apply only_deletes_filter|].
    split; [|split].
    + unfold expire_new_devices. destruct (HRS_TO_KEEP_NEWDEV =? 0);
        [apply only_deletes_refl | apply only_deletes_filter].
    + apply (only_deletes_trans _
               (age_out_pholus (now E) PHOLUS_DAYS_DATA (tbl_Pholus_Scan db))).
      * unfold age_out_pholus. destruct (pholus_enabled PHOLUS_DAYS_DATA);
          [apply only_deletes_filter | apply only_deletes_refl].
      * apply only_deletes_filter.
    + apply only_deletes_filter.
Qed.

(** *** The connection *)

Lemma deletes_without_vacuum (d : Z) (p : setting) (h k kN kA : Z) :
  ~ In VACUUM (deletes d p h k kN kA).
Proof.
  unfold deletes.
  destruct (h =? 0), (pholus_enabled p); simpl; intuition discriminate.
Qed.

(** C9 (amended).  The first call of a run opens the connection.  When the
    run returns, its calls were: connect, the DELETE statements, one commit
    after all of them, VACUUM after the commit, and close last, which leaves
    the connection closed and the cleaned rows in the file.  When a call
    raises (a statement, the commit or VACUUM refused), the exception leaves
    the script at once: close is not called, the connection stays open
    unless connect itself was refused, and the file is unchanged unless the
    commit had been made. *)
Theorem connection_closed_when_run_returns
    (E : environment) (DAYS_TO_KEEP_EVENTS : Z) (PHOLUS_DAYS_DATA : setting)
    (HRS_TO_KEEP_NEWDEV PLUGINS_KEEP_HIST : Z) (db : database) :
  let r :=
    run E DAYS_TO_KEEP_EVENTS PHOLUS_DAYS_DATA HRS_TO_KEEP_NEWDEV
      PLUGINS_KEEP_HIST db in
  (calls (snd r) = [] \/ hd_error (calls (snd r)) = Some Connect)
  /\ (completes r ->
      is_open (snd r) = false
      /\ exists kN kA,
           get_setting_value E "DBCLNP_NOTIFI_HIST" = Int kN
           /\ get_setting_value E "WORKFLOWS_AppEvents_hist" = Int kA
           /\ calls (snd r)
              = Connect
                :: map Execute
                     (deletes DAYS_TO_KEEP_EVENTS PHOLUS_DAYS_DATA
                        HRS_TO_KEEP_NEWDEV PLUGINS_KEEP_HIST kN kA)
                ++ [Commit; Execute VACUUM; Close]
           /\ ~ In VACUUM
                  (deletes DAYS_TO_KEEP_EVENTS PHOLUS_DAYS_DATA
                     HRS_TO_KEEP_NEWDEV PLUGINS_KEEP_HIST kN kA)
           /\ disk (snd r)
              = cleaned (now E) DAYS_TO_KEEP_EVENTS PHOLUS_DAYS_DATA
                  HRS_TO_KEEP_NEWDEV PLUGINS_KEEP_HIST kN kA db)
  /\ (~ completes r ->
      ~ In Close (calls (snd r))
      /\ (calls (snd r) = [] \/ is_open (snd r) = true)
      /\ (~ In Commit (calls (snd r)) -> disk (snd r) = db)).
Proof.
  intros r. subst r.
  destruct (run_outcome E DAYS_TO_KEEP_EVENTS PHOLUS_DAYS_DATA
              HRS_TO_KEEP_NEWDEV PLUGINS_KEEP_HIST db)
    as [[Hret [kN [kA [HN [HA R]]]]]
       | [e [Hraise [Hclose [Hopen [Hcommit [_ [kN [kA [rest [Hpre _]]]]]]]]]]].
  - split; [|split].
    + right. rewrite R. reflexivity.
    + intros _. rewrite R. split; [reflexivity|].
      exists kN, kA. repeat split; auto. apply deletes_without_vacuum.
    + intros Hnot. exfalso. apply Hnot. exact Hret.
  - split; [|split].
    + destruct (calls (snd (run E DAYS_TO_KEEP_EVENTS PHOLUS_DAYS_DATA
                              HRS_TO_KEEP_NEWDEV PLUGINS_KEEP_HIST db)))
        as [|c l]; [now left|].
      right. unfold script in Hpre. simpl in Hpre. now injection Hpre as ->.
    + unfold completes. intros Hret. congruence.
    + intros _. auto.
Qed.

(** A DELETE refused (call 3), the commit refused (call 8) and VACUUM
    refused (call 9): each time the run raises, close is not among the calls
    made and the connection is left open; in the first two the file is as it
    was, in the third the deletions are committed. *)
Lemma connection_left_open_when_a_call_is_refused :
  let db := Scenario.three_scans in
  let refused (n : nat) := run (Scenario.env_refusing n) 90 Empty 0 3 db in
  (fst (refused 3%nat) = Raise OperationalError
   /\ is_open (snd (refused 3%nat)) = true
   /\ ~ In Close (calls (snd (refused 3%nat)))
   /\ disk (snd (refused 3%nat)) = db)
  /\ (fst (refused 8%nat) = Raise OperationalError
      /\ is_open (snd (refused 8%nat)) = true
      /\ ~ In Close (calls (snd (refused 8%nat)))
      /\ disk (snd (refused 8%nat)) = db)
  /\ (fst (refused 9%nat) = Raise OperationalError
      /\ is_open (snd (refused 9%nat)) = true
      /\ ~ In Close (calls (snd (refused 9%nat)))
      /\ map Pholus_Scan.rowid (tbl_Pholus_Scan (disk (snd (refused 9%nat))))
         = [5]).
Proof.
  intros db refused.
  repeat split; try reflexivity; vm_compute; intuition discriminate.
Qed.

(* ================================================================== *)
(** ** Further properties of the run *)
(* ================================================================== *)

(** *** The commit point *)

Lemma run_committed (E : environment) (d : Z) (p : setting) (h k : Z)
    (db : database) :
  let r := run E d p h k db in
  In Commit (calls (snd r)) ->
  exists kN kA,
    get_setting_value E "DBCLNP_NOTIFI_HIST" = Int kN
    /\ get_setting_value E "WORKFLOWS_AppEvents_hist" = Int kA
    /\ disk (snd r) = cleaned (now E) d p h k kN kA db.
Proof.
  unfold run, cleanup_database, bind, connect, execute, commit, close, ret,
    at_rest, called, view, cleaned, expire_new_devices, age_out_pholus.
  cbn.
  destruct (get_setting_value E "DBCLNP_NOTIFI_HIST") as [|kN] eqn:HN;
    destruct (get_setting_value E "WORKFLOWS_AppEvents_hist") as [|kA] eqn:HA;
    destruct (h =? 0) eqn:Hh;
    destruct (pholus_enabled p) as [pd|] eqn:Hp.
  all: cbn;
    repeat (step_fault E;
            [ first [ intros _; exists kN, kA; repeat split; reflexivity
                    | intros H; cbn in H; exfalso; intuition discriminate ]
            | ]);
    first [ intros _; exists kN, kA; repeat split; reflexivity
          | intros H; cbn in H; exfalso; intuition discriminate ].
Qed.

Lemma script_commits (d : Z) (p : setting) (h k kN kA : Z) :
  In Commit (script d p h k kN kA).
Proof.
  unfold script. apply in_cons, in_or_app. right. now left.
Qed.

(** X2.  Deletions reach the file all together or not at all: after any run the
    file is as it was, or holds the rows with every step applied; it is as
    it was exactly when the run made no commit. *)
Theorem deletions_persist_all_or_none
    (E : environment) (DAYS_TO_KEEP_EVENTS : Z) (PHOLUS_DAYS_DATA : setting)
    (HRS_TO_KEEP_NEWDEV PLUGINS_KEEP_HIST : Z) (db : database) :
  let r :=
    run E DAYS_TO_KEEP_EVENTS PHOLUS_DAYS_DATA HRS_TO_KEEP_NEWDEV
      PLUGINS_KEEP_HIST db in
  (~ In Commit (calls (snd r)) -> disk (snd r) = db)
  /\ (In Commit (calls (snd r)) ->
      exists kN kA,
        get_setting_value E "DBCLNP_NOTIFI_HIST" = Int kN
        /\ get_setting_value E "WORKFLOWS_AppEvents_hist" = Int kA
        /\ disk (snd r)
           = cleaned (now E) DAYS_TO_KEEP_EVENTS PHOLUS_DAYS_DATA
               HRS_TO_KEEP_NEWDEV PLUGINS_KEEP_HIST kN kA db)
  /\ (completes r -> In Commit (calls (snd r))).
Proof.
  intros r. subst r. split; [|split].
  - destruct (run_outcome E DAYS_TO_KEEP_EVENTS PHOLUS_DAYS_DATA
                HRS_TO_KEEP_NEWDEV PLUGINS_KEEP_HIST db)
      as [[_ [kN [kA [_ [_ R]]]]] | [e [_ [_ [_ [Hcommit _]]]]]];
      [|exact Hcommit].
    intros Hnot. exfalso. apply Hnot. rewrite R. apply script_commits.
  - apply run_committed.
  - intros Hret.
    destruct (run_completes _ _ _ _ _ _ Hret) as [kN [kA [_ [_ R]]]].
    rewrite R. apply script_commits.
Qed.

(** *** Settings that are not filled in *)

(** X3.  When either history count is the empty setting, the statement built
    from it is malformed: every run raises, without a commit, and the file
    is left as it was although the statements before it had run. *)
Theorem empty_history_count_aborts_the_run
    (E : environment) (DAYS_TO_KEEP_EVENTS : Z) (PHOLUS_DAYS_DATA : setting)
    (HRS_TO_KEEP_NEWDEV PLUGINS_KEEP_HIST : Z) (db : database) :
  get_setting_value E "DBCLNP_NOTIFI_HIST" = Empty
  \/ get_setting_value E "WORKFLOWS_AppEvents_hist" = Empty ->
  let r :=
    run E DAYS_TO_KEEP_EVENTS PHOLUS_DAYS_DATA HRS_TO_KEEP_NEWDEV
      PLUGINS_KEEP_HIST db in
  ~ completes r
  /\ disk (snd r) = db
  /\ ~ In Commit (calls (snd r))
  /\ ~ In Close (calls (snd r)).
Proof.
  intros Hempty r. subst r.
  assert (forall kN kA,
            get_setting_value E "DBCLNP_NOTIFI_HIST" = Int kN ->
            get_setting_value E "WORKFLOWS_AppEvents_hist" = Int kA -> False)
    as Hno.
  { intros kN kA HN HA. destruct Hempty as [H | H]; congruence. }
  destruct (run_outcome E DAYS_TO_KEEP_EVENTS PHOLUS_DAYS_DATA
              HRS_TO_KEEP_NEWDEV PLUGINS_KEEP_HIST db)
    as [[_ [kN [kA [HN [HA _]]]]]
       | [e [Hraise [Hclose [_ [_ [Hdisk _]]]]]]].
  - exfalso. exact (Hno kN kA HN HA).
  - split; [unfold completes; congruence|].
    split; [|split; [|exact Hclose]].
    + destruct Hdisk as [H | [kN [kA [HN [HA _]]]]]; [exact H|].
      exfalso. exact (Hno kN kA HN HA).
    + intros Hc. apply run_committed in Hc as [kN [kA [HN [HA _]]]].
      exact (Hno kN kA HN HA).
Qed.

Lemma empty_history_count_aborts_the_run_witness :
  let E := Cases.env_without_counts in
  let r := run E 10 Empty 0 3 Scenario.busy in
  (get_setting_value E "DBCLNP_NOTIFI_HIST" = Empty
   \/ get_setting_value E "WORKFLOWS_AppEvents_hist" = Empty)
  /\ (~ completes r
      /\ disk (snd r) = Scenario.busy
      /\ ~ In Commit (calls (snd r))
      /\ ~ In Close (calls (snd r)))
  /\ calls (snd r)
     = [Connect; Execute Delete_Online_History; Execute (Delete_Events 10);
        Execute (Trim_Plugins_History 3)].
Proof.
  intros E r.
  assert (get_setting_value E "DBCLNP_NOTIFI_HIST" = Empty
          \/ get_setting_value E "WORKFLOWS_AppEvents_hist" = Empty) as H
    by (left; reflexivity).
  split; [exact H|]. split.
  - exact (empty_history_count_aborts_the_run E 10 Empty 0 3 Scenario.busy H).
  - reflexivity.
Defined.

(** *** The history counts at their edges *)

Lemma flat_map_nil {A B : Type} (l : list A) :
  flat_map (fun _ : A => @nil B) l = [].
Proof. induction l as [|x l IH]; simpl; auto. Qed.

Lemma filter_none {A : Type} (l : list A) :
  filter (fun _ => false) l = [].
Proof. induction l as [|x l IH]; simpl; auto. Qed.

Lemma trim_ranked_nonpositive {row : Type} (Index : row -> Z)
    (part key : row -> value) (K : Z) (t : list row) :
  K <= 0 -> trim_ranked Index part key K t = [].
Proof.
  intros HK. rewrite trim_ranked_eq.
  replace (Z.to_nat K) with 0%nat by lia. cbn [firstn].
  rewrite flat_map_nil. cbn [map in_list existsb]. apply filter_none.
Qed.

Lemma firstn_In_le {A : Type} (n m : nat) (l : list A) (x : A) :
  (n <= m)%nat -> In x (firstn n l) -> In x (firstn m l).
Proof.
  intros Hnm H.
  replace n with (Nat.min n m) in H by lia.
  rewrite <- firstn_firstn in H. now apply In_firstn in H.
Qed.

Lemma trim_ranked_mono {row : Type} (Index : row -> Z)
    (part key : row -> value) (K K' : Z) (t : list row) (r : row) :
  NoDup (map Index t) -> K <= K' ->
  In r (trim_ranked Index part key K t) ->
  In r (trim_ranked Index part key K' t).
Proof.
  intros Hnd HK. rewrite !trim_ranked_In by exact Hnd.
  apply firstn_In_le. lia.
Qed.

(** X4.  A history count of 0 or less does not switch a step off, as
    hoursToKeepNewDevices = 0 does: after a run that returns, the table is
    empty. *)
Theorem nonpositive_history_count_empties_the_table
    (E : environment) (DAYS_TO_KEEP_EVENTS : Z) (PHOLUS_DAYS_DATA : setting)
    (HRS_TO_KEEP_NEWDEV PLUGINS_KEEP_HIST : Z) (db : database) :
  completes (run E DAYS_TO_KEEP_EVENTS PHOLUS_DAYS_DATA HRS_TO_KEEP_NEWDEV
               PLUGINS_KEEP_HIST db) ->
  let db' :=
    after_run E DAYS_TO_KEEP_EVENTS PHOLUS_DAYS_DATA HRS_TO_KEEP_NEWDEV
      PLUGINS_KEEP_HIST db in
  (PLUGINS_KEEP_HIST <= 0 -> tbl_Plugins_History db' = [])
  /\ (forall kN,
        get_setting_value E "DBCLNP_NOTIFI_HIST" = Int kN -> kN <= 0 ->
        tbl_Notifications db' = [])
  /\ (forall kA,
        get_setting_value E "WORKFLOWS_AppEvents_hist" = Int kA -> kA <= 0 ->
        tbl_AppEvents db' = []).
Proof.
  intros Hrun db'.
  destruct (after_run_completes _ _ _ _ _ _ Hrun) as [kN [kA [HN [HA R]]]].
  subst db'. rewrite R.
  cbn [tbl_Plugins_History tbl_Notifications tbl_AppEvents cleaned].
  split; [|split].
  - apply trim_ranked_nonpositive.
  - intros k Hk Hle. assert (k = kN) as -> by congruence.
    now apply trim_ranked_nonpositive.
  - intros k Hk Hle. assert (k = kA) as -> by congruence.
    now apply trim_ranked_nonpositive.
Qed.

Lemma nonpositive_history_count_empties_the_table_witness :
  let E := Scenario.env Scenario.noon_20_jan in
  let db := Scenario.five_of_X in
  let db' := after_run E 90 Empty 0 0 db in
  completes (run E 90 Empty 0 0 db)
  /\ ((0 <= 0 -> tbl_Plugins_History db' = [])
      /\ (forall kN,
            get_setting_value E "DBCLNP_NOTIFI_HIST" = Int kN -> kN <= 0 ->
            tbl_Notifications db' = [])
      /\ (forall kA,
            get_setting_value E "WORKFLOWS_AppEvents_hist" = Int kA ->
            kA <= 0 -> tbl_AppEvents db' = []))
  /\ List.length (tbl_Plugins_History db) = 7%nat.
Proof.
  intros E db db'.
  assert (completes (run E 90 Empty 0 0 db)) as Hrun by reflexivity.
  split; [exact Hrun|]. split.
  - exact (nonpositive_history_count_empties_the_table E 90 Empty 0 0 db Hrun).
  - reflexivity.
Defined.

(** X5.  Raising pluginsKeepHistory never deletes more: on the same database and
    clock, every row of Plugins_History that a run with K leaves, a run with
    K' >= K leaves too. *)
Theorem larger_history_count_keeps_more
    (E : environment) (DAYS_TO_KEEP_EVENTS : Z) (PHOLUS_DAYS_DATA : setting)
    (HRS_TO_KEEP_NEWDEV K K' : Z) (db : database) :
  completes (run E DAYS_TO_KEEP_EVENTS PHOLUS_DAYS_DATA HRS_TO_KEEP_NEWDEV K db) ->
  completes (run E DAYS_TO_KEEP_EVENTS PHOLUS_DAYS_DATA HRS_TO_KEEP_NEWDEV K' db) ->
  NoDup (map Plugins_History.Index (tbl_Plugins_History db)) ->
  K <= K' ->
  incl
    (tbl_Plugins_History
       (after_run E DAYS_TO_KEEP_EVENTS PHOLUS_DAYS_DATA HRS_TO_KEEP_NEWDEV
          K db))
    (tbl_Plugins_History
       (after_run E DAYS_TO_KEEP_EVENTS PHOLUS_DAYS_DATA HRS_TO_KEEP_NEWDEV
          K' db)).
Proof.
  intros Hrun Hrun' Hnd HK.
  destruct (after_run_completes _ _ _ _ _ _ Hrun) as [kN [kA [_ [_ R]]]].
  destruct (after_run_completes _ _ _ _ _ _ Hrun') as [kN' [kA' [_ [_ R']]]].
  rewrite R, R'. cbn [tbl_Plugins_History cleaned].
  intros r. now apply trim_ranked_mono.
Qed.

Lemma larger_history_count_keeps_more_witness :
  let E := Scenario.env Scenario.noon_20_jan in
  let db := Scenario.five_of_X in
  completes (run E 90 Empty 0 1 db)
  /\ completes (run E 90 Empty 0 3 db)
  /\ NoDup (map Plugins_History.Index (tbl_Plugins_History db))
  /\ 1 <= 3
  /\ incl (tbl_Plugins_History (after_run E 90 Empty 0 1 db))
          (tbl_Plugins_History (after_run E 90 Empty 0 3 db))
  /\ map Plugins_History.Index
       (tbl_Plugins_History (after_run E 90 Empty 0 1 db)) = [5; 7].
Proof.
  intros E db.
  assert (completes (run E 90 Empty 0 1 db)) as H1 by reflexivity.
  assert (completes (run E 90 Empty 0 3 db)) as H3 by reflexivity.
  assert (NoDup (map Plugins_History.Index (tbl_Plugins_History db))) as Hnd.
  { repeat constructor; simpl; intuition discriminate. }
  assert (1 <= 3) as Hle by lia.
  split; [exact H1|]. split; [exact H3|]. split; [exact Hnd|].
  split; [exact Hle|]. split.
  - exact (larger_history_count_keeps_more E 90 Empty 0 1 3 db H1 H3 Hnd Hle).
  - reflexivity.
Defined.

(** *** Tables already within their bounds *)

Lemma delete_online_history_small (t : list Online_History.row) :
  NoDup (map Online_History.Index t) ->
  (List.length t <= 150)%nat ->
  delete_online_history t = t.
Proof.
  intros Hnd Hlen. unfold delete_online_history at 1. apply filter_all.
  intros r Hr.
  assert (In r (delete_online_history t)) as H.
  { apply delete_online_history_In; [exact Hnd|]. unfold limit.
    rewrite firstn_all2 by now rewrite order_by_desc_length.
    now apply order_by_desc_In. }
  unfold delete_online_history in H. now apply filter_In in H.
Qed.

Lemma trim_ranked_whole_small {row : Type} (Index : row -> Z) (c : value)
    (key : row -> value) (K : Z) (t : list row) :
  NoDup (map Index t) ->
  Z.of_nat (List.length t) <= K ->
  trim_ranked Index (fun _ => c) key K t = t.
Proof.
  intros Hnd Hlen.
  pose proof (trim_ranked_small Index (fun _ => c) key K c t Hnd) as H.
  rewrite !partition_of_constant in H. apply H. lia.
Qed.

(** X6.  A table that is within its bound before the run loses no row: after a
    run that returns, Online_History with at most 150 rows, and
    Notifications and AppEvents with at most their history count of rows,
    are as they were ("Index" identifying the rows). *)
Theorem tables_within_bounds_lose_nothing
    (E : environment) (DAYS_TO_KEEP_EVENTS : Z) (PHOLUS_DAYS_DATA : setting)
    (HRS_TO_KEEP_NEWDEV PLUGINS_KEEP_HIST : Z) (db : database) :
  completes (run E DAYS_TO_KEEP_EVENTS PHOLUS_DAYS_DATA HRS_TO_KEEP_NEWDEV
               PLUGINS_KEEP_HIST db) ->
  let db' :=
    after_run E DAYS_TO_KEEP_EVENTS PHOLUS_DAYS_DATA HRS_TO_KEEP_NEWDEV
      PLUGINS_KEEP_HIST db in
  (NoDup (map Online_History.Index (tbl_Online_History db)) ->
   (List.length (tbl_Online_History db) <= 150)%nat ->
   tbl_Online_History db' = tbl_Online_History db)
  /\ (forall kN,
        get_setting_value E "DBCLNP_NOTIFI_HIST" = Int kN ->
        NoDup (map Notifications.Index (tbl_Notifications db)) ->
        Z.of_nat (List.length (tbl_Notifications db)) <= kN ->
        tbl_Notifications db' = tbl_Notifications db)
  /\ (forall kA,
        get_setting_value E "WORKFLOWS_AppEvents_hist" = Int kA ->
        NoDup (map AppEvents.Index (tbl_AppEvents db)) ->
        Z.of_nat (List.length (tbl_AppEvents db)) <= kA ->
        tbl_AppEvents db' = tbl_AppEvents db).
Proof.
  intros Hrun db'.
  destruct (after_run_completes _ _ _ _ _ _ Hrun) as [kN [kA [HN [HA R]]]].
  subst db'. rewrite R.
  cbn [tbl_Online_History tbl_Notifications tbl_AppEvents cleaned].
  split; [|split].
  - apply delete_online_history_small.
  - intros k Hk Hnd Hlen. assert (k = kN) as -> by congruence.
    now apply trim_ranked_whole_small.
  - intros k Hk Hnd Hlen. assert (k = kA) as -> by congruence.
    now apply trim_ranked_whole_small.
Qed.

Lemma tables_within_bounds_lose_nothing_witness :
  let E := Scenario.env Scenario.noon_20_jan in
  let db :=
    with_Online_History (fun _ => map Scenario.scan (seq 0 150))
      (with_Notifications (fun _ => [Scenario.note 1 "2024-01-01 08:00:00"])
         Scenario.busy) in
  let db' := after_run E 90 Empty 0 3 db in
  completes (run E 90 Empty 0 3 db)
  /\ ((NoDup (map Online_History.Index (tbl_Online_History db)) ->
       (List.length (tbl_Online_History db) <= 150)%nat ->
       tbl_Online_History db' = tbl_Online_History db)
      /\ (forall kN,
            get_setting_value E "DBCLNP_NOTIFI_HIST" = Int kN ->
            NoDup (map Notifications.Index (tbl_Notifications db)) ->
            Z.of_nat (List.length (tbl_Notifications db)) <= kN ->
            tbl_Notifications db' = tbl_Notifications db)
      /\ (forall kA,
            get_setting_value E "WORKFLOWS_AppEvents_hist" = Int kA ->
            NoDup (map AppEvents.Index (tbl_AppEvents db)) ->
            Z.of_nat (List.length (tbl_AppEvents db)) <= kA ->
            tbl_AppEvents db' = tbl_AppEvents db))
  /\ List.length (tbl_Online_History db') = 150%nat.
Proof.
  intros E db db'.
  assert (completes (run E 90 Empty 0 3 db)) as Hrun
    by (vm_compute; reflexivity).
  split; [exact Hrun|]. split.
  - exact (tables_within_bounds_lose_nothing E 90 Empty 0 3 db Hrun).
  - vm_compute. reflexivity.
Defined.

(** *** Devices that are not new *)

Lemma delete_where_never {row : Type} (cond : row -> condition)
    (t : list row) :
  (forall r, In r t -> holds (cond r) = false) -> delete_where cond t = t.
Proof.
  intros H. unfold delete_where. apply filter_all.
  intros r Hr. now rewrite (H r Hr).
Qed.

(** X7.  No run deletes a device whose dev_NewDevice is not 1, whatever its first
    connection and whatever hoursToKeepNewDevices. *)
Theorem devices_not_new_are_never_deleted
    (E : environment) (DAYS_TO_KEEP_EVENTS : Z) (PHOLUS_DAYS_DATA : setting)
    (HRS_TO_KEEP_NEWDEV PLUGINS_KEEP_HIST : Z) (db : database)
    (r : Devices.row) :
  In r (tbl_Devices db) ->
  Devices.dev_NewDevice r <> Some 1 ->
  In r
    (tbl_Devices
       (after_run E DAYS_TO_KEEP_EVENTS PHOLUS_DAYS_DATA HRS_TO_KEEP_NEWDEV
          PLUGINS_KEEP_HIST db)).
Proof.
  intros Hr Hnew.
  destruct (after_run_cases E DAYS_TO_KEEP_EVENTS PHOLUS_DAYS_DATA
              HRS_TO_KEEP_NEWDEV PLUGINS_KEEP_HIST db)
    as [-> | [kN [kA [_ [_ ->]]]]]; [exact Hr|].
  cbn [tbl_Devices cleaned]. unfold expire_new_devices.
  destruct (HRS_TO_KEEP_NEWDEV =? 0); [exact Hr|].
  unfold delete_new_devices. apply delete_where_In. split; [exact Hr|].
  destruct (Devices.dev_NewDevice r) as [n|]; simpl.
  - destruct (n =? 1) eqn:En.
    + apply Z.eqb_eq in En. congruence.
    + destruct (text_lt (Devices.dev_FirstConnection r)
                  (date_now_minus (now E) HRS_TO_KEEP_NEWDEV Hour))
        as [[|]|]; discriminate.
  - destruct (text_lt (Devices.dev_FirstConnection r)
                (date_now_minus (now E) HRS_TO_KEEP_NEWDEV Hour))
      as [[|]|]; discriminate.
Qed.

Lemma devices_not_new_are_never_deleted_witness :
  let E := Scenario.env Scenario.noon_20_jan in
  let db := Scenario.devices_of_today in
  let r := Scenario.device (Some 0) "2020-05-05 10:00:00" in
  In r (tbl_Devices db)
  /\ Devices.dev_NewDevice r <> Some 1
  /\ In r (tbl_Devices (after_run E 90 Empty 1 3 db))
  /\ List.length (tbl_Devices (after_run E 90 Empty 1 3 db)) = 2%nat.
Proof.
  intros E db r.
  assert (In r (tbl_Devices db)) as Hr by (right; right; left; reflexivity).
  assert (Devices.dev_NewDevice r <> Some 1) as Hnew by discriminate.
  split; [exact Hr|]. split; [exact Hnew|]. split.
  - exact (devices_not_new_are_never_deleted E 90 Empty 1 3 db r Hr Hnew).
  - reflexivity.
Defined.

(** *** Which rows the de-duplication deletes *)

(** X8.  After a run that returns, a row of Plugins_Objects is left exactly when
    no row of the table with an equal key has a smaller row id, and a row of
    Pholus_Scan that passed the age-out exactly when no such row that passed
    it has; so a row whose key no other row shares is never deleted as a
    duplicate. *)
Theorem deduplication_deletes_only_rows_with_an_older_twin
    (E : environment) (DAYS_TO_KEEP_EVENTS : Z) (PHOLUS_DAYS_DATA : setting)
    (HRS_TO_KEEP_NEWDEV PLUGINS_KEEP_HIST : Z) (db : database) :
  completes (run E DAYS_TO_KEEP_EVENTS PHOLUS_DAYS_DATA HRS_TO_KEEP_NEWDEV
               PLUGINS_KEEP_HIST db) ->
  let db' :=
    after_run E DAYS_TO_KEEP_EVENTS PHOLUS_DAYS_DATA HRS_TO_KEEP_NEWDEV
      PLUGINS_KEEP_HIST db in
  let aged := age_out_pholus (now E) PHOLUS_DAYS_DATA (tbl_Pholus_Scan db) in
  (forall r,
     In r (tbl_Plugins_Objects db')
     <-> In r (tbl_Plugins_Objects db)
         /\ forall p2,
              In p2 (tbl_Plugins_Objects db) ->
              holds (objects_same_key r p2) = true ->
              Plugins_Objects.rowid r <= Plugins_Objects.rowid p2)
  /\ (forall r,
        In r (tbl_Pholus_Scan db')
        <-> In r aged
            /\ forall p2,
                 In p2 aged -> holds (pholus_same_key r p2) = true ->
                 Pholus_Scan.rowid r <= Pholus_Scan.rowid p2).
Proof.
  intros Hrun db' aged.
  destruct (after_run_completes _ _ _ _ _ _ Hrun) as [kN [kA [_ [_ R]]]].
  subst db' aged. rewrite R. cbn [tbl_Plugins_Objects tbl_Pholus_Scan cleaned].
  split; intros r; apply delete_duplicates_In.
Qed.

Lemma deduplication_deletes_only_rows_with_an_older_twin_witness :
  let E := Scenario.env Scenario.noon_20_jan in
  let db := Cases.objects_with_a_twin in
  let db' := after_run E 90 Empty 0 3 db in
  let aged := age_out_pholus (now E) Empty (tbl_Pholus_Scan db) in
  completes (run E 90 Empty 0 3 db)
  /\ ((forall r,
         In r (tbl_Plugins_Objects db')
         <-> In r (tbl_Plugins_Objects db)
             /\ forall p2,
                  In p2 (tbl_Plugins_Objects db) ->
                  holds (objects_same_key r p2) = true ->
                  Plugins_Objects.rowid r <= Plugins_Objects.rowid p2)
      /\ (forall r,
            In r (tbl_Pholus_Scan db')
            <-> In r aged
                /\ forall p2,
                     In p2 aged -> holds (pholus_same_key r p2) = true ->
                     Pholus_Scan.rowid r <= Pholus_Scan.rowid p2))
  /\ map Plugins_Objects.rowid (tbl_Plugins_Objects db') = [4; 9].
Proof.
  intros E db db' aged.
  assert (completes (run E 90 Empty 0 3 db)) as Hrun by reflexivity.
  split; [exact Hrun|]. split.
  - exact (deduplication_deletes_only_rows_with_an_older_twin E 90 Empty 0 3
             db Hrun).
  - reflexivity.
Defined.

(** *** Negative numbers of days and hours *)

Lemma text_le_null (a : value) : text_le a None = None.
Proof. now destruct a. Qed.

Lemma text_lt_null (a : value) : text_lt a None = None.
Proof. now destruct a. Qed.

(** X9.  A negative daysToKeepEvents, hoursToKeepNewDevices or PHOLUS_DAYS_DATA
    makes the modifier of date() malformed and the cutoff NULL: after a run
    that returns, Events, respectively Devices, are as they were, and
    Pholus_Scan has lost its duplicates only. *)
Theorem negative_days_or_hours_delete_nothing
    (E : environment) (DAYS_TO_KEEP_EVENTS : Z) (PHOLUS_DAYS_DATA : setting)
    (HRS_TO_KEEP_NEWDEV PLUGINS_KEEP_HIST : Z) (db : database) :
  completes (run E DAYS_TO_KEEP_EVENTS PHOLUS_DAYS_DATA HRS_TO_KEEP_NEWDEV
               PLUGINS_KEEP_HIST db) ->
  let db' :=
    after_run E DAYS_TO_KEEP_EVENTS PHOLUS_DAYS_DATA HRS_TO_KEEP_NEWDEV
      PLUGINS_KEEP_HIST db in
  (DAYS_TO_KEEP_EVENTS < 0 -> tbl_Events db' = tbl_Events db)
  /\ (HRS_TO_KEEP_NEWDEV < 0 -> tbl_Devices db' = tbl_Devices db)
  /\ (forall D,
        PHOLUS_DAYS_DATA = Int D -> D < 0 ->
        tbl_Pholus_Scan db' = dedupe_pholus_scan (tbl_Pholus_Scan db)).
Proof.
  intros Hrun db'.
  destruct (after_run_completes _ _ _ _ _ _ Hrun) as [kN [kA [_ [_ R]]]].
  subst db'. rewrite R. cbn [tbl_Events tbl_Devices tbl_Pholus_Scan cleaned].
  split; [|split].
  - intros Hneg. unfold delete_events.
    rewrite (proj2 (date_now_minus_spec (now E) DAYS_TO_KEEP_EVENTS Day) Hneg).
    apply delete_where_never. intros r _. now rewrite text_le_null.
  - intros Hneg. unfold expire_new_devices.
    destruct (HRS_TO_KEEP_NEWDEV =? 0); [reflexivity|].
    unfold delete_new_devices.
    rewrite (proj2 (date_now_minus_spec (now E) HRS_TO_KEEP_NEWDEV Hour) Hneg).
    apply delete_where_never. intros r _. rewrite text_lt_null.
    now destruct (int_eq (Devices.dev_NewDevice r) (Some 1)) as [[|]|].
  - intros D -> Hneg. f_equal. unfold age_out_pholus, pholus_enabled.
    destruct (D =? 0) eqn:E0; [reflexivity|].
    unfold delete_pholus_scan.
    rewrite (proj2 (date_now_minus_spec (now E) D Day) Hneg).
    apply delete_where_never. intros r _. now rewrite text_le_null.
Qed.

Lemma negative_days_or_hours_delete_nothing_witness :
  let E := Scenario.env Scenario.noon_20_jan in
  let db := Scenario.busy in
  let db' := after_run E (-1) (Int (-5)) (-2) 3 db in
  completes (run E (-1) (Int (-5)) (-2) 3 db)
  /\ ((-1 < 0 -> tbl_Events db' = tbl_Events db)
      /\ (-2 < 0 -> tbl_Devices db' = tbl_Devices db)
      /\ (forall D,
            Int (-5) = Int D -> D < 0 ->
            tbl_Pholus_Scan db' = dedupe_pholus_scan (tbl_Pholus_Scan db)))
  /\ List.length (tbl_Events db') = 5%nat.
Proof.
  intros E db db'.
  assert (completes (run E (-1) (Int (-5)) (-2) 3 db)) as Hrun by reflexivity.
  split; [exact Hrun|]. split.
  - exact (negative_days_or_hours_delete_nothing E (-1) (Int (-5)) (-2) 3 db
             Hrun).
  - reflexivity.
Defined.

(** *** When the run returns *)



(* ================================================================== *)
(** ** The entry point *)
(* ================================================================== *)

Import Main.

(** *** str.split *)

Lemma split_on_without (sep : ascii) (s : string) :
  ~ In sep (list_ascii_of_string s) -> split_on sep s = [s].
Proof.
  induction s as [|c s IH]; simpl; intros H; [reflexivity|].
  destruct (Ascii.eqb_spec c sep) as [-> | Hc]; [exfalso; auto|].
  rewrite IH by auto. reflexivity.
Qed.

Lemma split_on_append (sep : ascii) (a b : string) :
  ~ In sep (list_ascii_of_string a) ->
  split_on sep (a ++ String sep b) = a :: split_on sep b.
Proof.
  induction a as [|c a IH]; simpl; intros H.
  - now rewrite Ascii.eqb_refl.
  - destruct (Ascii.eqb_spec c sep) as [-> | Hc]; [exfalso; auto|].
    rewrite IH by auto. reflexivity.
Qed.



(** *** int and str *)

Lemma digit_is_plain (c : ascii) :
  is_digit c = true ->
  is_space c = false /\ Ascii.eqb c "-" = false /\ Ascii.eqb c "+" = false
  /\ Ascii.eqb c "_" = false /\ c <> "="%char.
Proof.
  destruct c as [[] [] [] [] [] [] [] []]; cbv; intuition discriminate.
Qed.

Lemma digit_is_byte (c : ascii) : is_digit c = true -> byte c < 127.
Proof.
  destruct c as [[] [] [] [] [] [] [] []]; cbv; intros H;
    try discriminate H; reflexivity.
Qed.

(** Bytes below 127 are their own characters, and [int] leaves them. *)
Lemma plain_bytes_decode (l : list ascii) :
  Forall (fun c => byte c < 127) l ->
  map to_ascii (decode_utf8 (map byte l)) = l.
Proof.
  induction 1 as [|c l Hc Hl IH]; [reflexivity|].
  cbn [map decode_utf8].
  destruct (Z.ltb_spec (byte c) 128); [|lia].
  cbn [map]. rewrite IH. f_equal.
  unfold to_ascii. destruct (Z.ltb_spec (byte c) 127); [|lia].
  unfold ascii_of_code, byte. rewrite N2Z.id. apply ascii_N_embedding.
Qed.

Lemma lstrip_plain (l : list ascii) :
  match l with [] => True | c :: _ => is_space c = false end ->
  lstrip l = l.
Proof. destruct l as [|c l]; simpl; [reflexivity|]. now intros ->. Qed.

Lemma strip_plain (l : list ascii) :
  Forall (fun c => is_space c = false) l -> strip l = l.
Proof.
  intros H. unfold strip.
  rewrite (lstrip_plain l) by (destruct H; auto).
  rewrite lstrip_plain; [apply rev_involutive|].
  apply Forall_rev in H. destruct H; auto.
Qed.

Lemma plain_digits_all (after_digit : bool) (l : list ascii) :
  Forall (fun c => is_digit c = true) l ->
  after_digit = true \/ l <> [] ->
  plain_digits after_digit l = Some l.
Proof.
  intros H. revert after_digit.
  induction H as [|c l Hc Hl IH]; intros after_digit Hne; simpl.
  - destruct Hne as [-> | Hne]; [reflexivity | congruence].
  - rewrite Hc, (IH true) by auto. reflexivity.
Qed.

Lemma string_length_list (s : string) :
  String.length s = List.length (list_ascii_of_string s).
Proof. induction s as [|c s IH]; simpl; auto. Qed.

Lemma uint_digits (u : Decimal.uint) :
  Forall (fun c => is_digit c = true)
    (list_ascii_of_string (NilEmpty.string_of_uint u)).
Proof.
  induction u; simpl; constructor; auto.
Qed.

(** What [str] prints for a natural number reads back as that number. *)
Lemma uint_text (u : Decimal.uint) :
  let l := list_ascii_of_string (NilZero.string_of_uint u) in
  Forall (fun c => is_digit c = true) l
  /\ l <> []
  /\ exists u',
       NilEmpty.uint_of_string (string_of_list_ascii l) = Some u'
       /\ Z.of_uint u' = Z.of_uint u.
Proof.
  destruct u as [|u|u|u|u|u|u|u|u|u|u];
    try (cbn zeta; unfold NilZero.string_of_uint;
         split; [apply uint_digits|];
         split; [discriminate|];
         eexists; split;
         [rewrite string_of_list_ascii_of_string; apply NilEmpty.usu
         | reflexivity]).
  cbn. split; [repeat constructor|]. split; [discriminate|].
  eexists. split; reflexivity.
Qed.

Lemma python_int_digits (negative : bool) (l : list ascii)
    (u : Decimal.uint) :
  Forall (fun c => is_digit c = true) l -> l <> [] ->
  (List.length l <= 4300)%nat ->
  NilEmpty.uint_of_string (string_of_list_ascii l) = Some u ->
  python_int
    (string_of_list_ascii (if negative then "-"%char :: l else l))
  = Some (if negative then - Z.of_uint u else Z.of_uint u).
Proof.
  intros Hd Hne Hlen Hu. unfold python_int.
  rewrite list_ascii_of_string_of_list_ascii.
  assert (Forall (fun c => byte c < 127) l) as Hb.
  { eapply Forall_impl; [|exact Hd]. intros c Hc.
    now apply digit_is_byte in Hc. }
  rewrite plain_bytes_decode
    by (destruct negative; [constructor; [reflexivity|]|]; exact Hb).
  assert (Forall (fun c => is_space c = false) l) as Hsp.
  { eapply Forall_impl; [|exact Hd]. intros c Hc.
    now apply digit_is_plain in Hc. }
  assert ((4300 <? List.length l)%nat = false) as Hlim
    by (apply Nat.ltb_ge; exact Hlen).
  destruct negative.
  - rewrite strip_plain by (constructor; [reflexivity | exact Hsp]).
    cbn [Ascii.eqb Bool.eqb]. cbn match.
    rewrite plain_digits_all by auto. now rewrite Hlim, Hu.
  - rewrite strip_plain by exact Hsp.
    destruct l as [|c l]; [congruence|].
    inversion Hd as [|? ? Hc Hl]; subst.
    destruct (digit_is_plain c Hc) as [_ [-> [-> _]]].
    rewrite plain_digits_all by auto. now rewrite Hlim, Hu.
Qed.

(** [int(str(n))] is [n], for numbers of at most 4300 digits. *)
Lemma python_int_str (n : Z) :
  (String.length (python_str n) <= 4300)%nat ->
  python_int (python_str n) = Some n.
Proof.
  unfold python_str. intros Hlen.
  rewrite <- (DecimalZ.of_to n) at 2.
  destruct (Z.to_int n) as [u | u]; cbn [NilZero.string_of_int] in *;
    destruct (uint_text u) as [Hd [Hne [u' [Hu Hval]]]];
    cbn [Z.of_int]; rewrite <- Hval.
  - rewrite <- (string_of_list_ascii_of_string (NilZero.string_of_uint u)).
    apply (python_int_digits false); auto.
    now rewrite <- string_length_list.
  - rewrite <- (string_of_list_ascii_of_string (NilZero.string_of_uint u)).
    apply (python_int_digits true); auto.
    rewrite <- string_length_list. simpl in Hlen. lia.
Qed.

Lemma python_str_without_equals (n : Z) : without_equals (python_str n).
Proof.
  unfold without_equals, python_str.
  assert (forall u,
            ~ In "="%char (list_ascii_of_string (NilZero.string_of_uint u)))
    as H.
  { intros u Hin. destruct (uint_text u) as [Hd _].
    rewrite Forall_forall in Hd. apply Hd in Hin. discriminate. }
  destruct (Z.to_int n) as [u | u]; cbn [NilZero.string_of_int]; [apply H|].
  simpl. intros [Heq | Hin]; [discriminate | now apply H in Hin].
Qed.

Lemma int_after_equals_named (name : string) (n : Z) :
  without_equals name ->
  (String.length (python_str n) <= 4300)%nat ->
  int_after_equals (name ++ String "=" (python_str n)) = inr n.
Proof.
  intros Hname Hlen. unfold int_after_equals.
  rewrite split_on_append by exact Hname.
  rewrite split_on_without by apply python_str_without_equals.
  cbn [nth_error]. now rewrite python_int_str.
Qed.

(** *** main *)


(** X12.  The arguments are read by position: with the first three of the shape
    name=number, whatever the names, main runs the cleanup with the first
    number as pluginsKeepHistory, the second as hoursToKeepNewDevices, the
    third as daysToKeepEvents and the setting PHOLUS_DAYS_DATA; the fourth
    argument is not read.  It exits with 0 when the cleanup returns and with
    the exception of the database otherwise, leaving the file as that run
    leaves it. *)
Theorem main_reads_its_arguments_by_position
    (E : environment) (name1 name2 name3 fourth : string) (K H N : Z)
    (db : database) :
  without_equals name1 -> without_equals name2 -> without_equals name3 ->
  (String.length (python_str K) <= 4300)%nat ->
  (String.length (python_str H) <= 4300)%nat ->
  (String.length (python_str N) <= 4300)%nat ->
  let values :=
    {| pluginskeephistory := name1 ++ String "=" (python_str K);
       hourstokeepnewdevice := name2 ++ String "=" (python_str H);
       daystokeepevents := name3 ++ String "=" (python_str N);
       pholuskeepdays := fourth |} in
  let r := run E N (get_setting_value E "PHOLUS_DAYS_DATA") H K db in
  main E values db
  = (match fst r with
     | Return _ => Exit 0
     | Raise e => Uncaught (DatabaseError e)
     end, snd r).
Proof.
  intros H1 H2 H3 LK LH LN values r. subst values r. unfold main.
  cbn [pluginskeephistory hourstokeepnewdevice daystokeepevents].
  rewrite !int_after_equals_named by assumption.
  cbn zeta. unfold run.
  now destruct (cleanup_database _ _ _ _ _ _) as [[[]|e] w].
Qed.

Lemma main_reads_its_arguments_by_position_witness :
  let E := Scenario.env Scenario.noon_20_jan in
  let db := Scenario.five_of_X in
  let values :=
    {| pluginskeephistory := "pluginskeephistory" ++ String "=" (python_str 3);
       hourstokeepnewdevice :=
         "hourstokeepnewdevice" ++ String "=" (python_str 1);
       daystokeepevents := "daystokeepevents" ++ String "=" (python_str 10);
       pholuskeepdays := "pholuskeepdays=30" |} in
  let r := run E 10 (get_setting_value E "PHOLUS_DAYS_DATA") 1 3 db in
  without_equals "pluginskeephistory"
  /\ without_equals "hourstokeepnewdevice"
  /\ without_equals "daystokeepevents"
  /\ (String.length (python_str 3) <= 4300)%nat
  /\ (String.length (python_str 1) <= 4300)%nat
  /\ (String.length (python_str 10) <= 4300)%nat
  /\ main E values db
     = (match fst r with
        | Return _ => Exit 0
        | Raise e => Uncaught (DatabaseError e)
        end, snd r)
  /\ values = Cases.usual_arguments
  /\ fst (main E Cases.usual_arguments db) = Exit 0
  /\ map Plugins_History.Index
       (tbl_Plugins_History (disk (snd (main E Cases.usual_arguments db))))
     = [2; 4; 5; 6; 7].
Proof.
  intros E db values r.
  assert (without_equals "pluginskeephistory") as H1
    by (cbv; intuition discriminate).
  assert (without_equals "hourstokeepnewdevice") as H2
    by (cbv; intuition discriminate).
  assert (without_equals "daystokeepevents") as H3
    by (cbv; intuition discriminate).
  assert (String.length (python_str 3) <= 4300)%nat as L3
    by (apply Nat.leb_le; reflexivity).
  assert (String.length (python_str 1) <= 4300)%nat as L1
    by (apply Nat.leb_le; reflexivity).
  assert (String.length (python_str 10) <= 4300)%nat as L10
    by (apply Nat.leb_le; reflexivity).
  split; [exact H1|]. split; [exact H2|]. split; [exact H3|].
  split; [exact L3|]. split; [exact L1|]. split; [exact L10|]. split.
  - exact (main_reads_its_arguments_by_position E "pluginskeephistory"
             "hourstokeepnewdevice" "daystokeepevents" "pholuskeepdays=30"
             3 1 10 db H1 H2 H3 L3 L1 L10).
  - repeat split; vm_compute; reflexivity.
Defined.
